(** * PySAGA_cmd: the command-construction and invocation layer

    A shallow embedding of [src/saga.py]: the executable path handle
    ([SAGACMD]), the [Flag], the [Parameters] mapping, the [Command] token
    list with its execution, the three executable levels ([SAGA], [Library],
    [Tool]) and the [Output] with its typed extraction.

    Python objects that are shared by reference ([Flag], [SAGA], [Library],
    [Tool]) live in a heap; strings are [string]; keyword arguments and
    dictionaries are insertion-ordered association lists. What the code
    takes from the host is a parameter of the model: the built-in
    [str.upper] ([str_upper]), and the file system and the processes
    ([env]). *)

From Stdlib Require Import String Ascii ZArith List Bool Lia.
From stdpp Require Import base option list strings pretty gmap.

Open Scope string_scope.
Open Scope list_scope.

(** ** Python strings and printable values *)

(** Upper case of one ASCII character. *)
Definition upper_ascii (c : ascii) : ascii :=
  let n := nat_of_ascii c in
  if (97 <=? n)%nat && (n <=? 122)%nat then ascii_of_nat (n - 32) else c.

(** Upper case of ASCII text: what [str.upper] gives on a string of ASCII
    characters. It is not [str.upper] (which maps every Unicode character,
    and may change the length); it only instantiates [str_upper] where the
    model is run on ASCII examples. *)
Fixpoint ascii_upper (s : string) : string :=
  match s with
  | EmptyString => EmptyString
  | String c s' => String (upper_ascii c) (ascii_upper s')
  end.

(** [s.startswith(p)]. *)
Definition startswith (s p : string) : bool := String.prefix p s.

(** The values a caller passes as keyword arguments ([SupportsStr]). *)
Inductive value :=
| VNone
| VBool (b : bool)
| VInt (z : Z)
| VStr (s : string).

(** [str(v)]. *)
Definition str (v : value) : string :=
  match v with
  | VNone => "None"
  | VBool true => "True"
  | VBool false => "False"
  | VInt z => pretty z
  | VStr s => s
  end.

(** ** Insertion-ordered dictionaries *)

Definition dict (V : Type) : Type := list (string * V).

(** [d[k] = v]: an existing key keeps its position and gets the new value,
    a new key is appended. *)
Fixpoint dict_setitem {V} (k : string) (v : V) (d : dict V) : dict V :=
  match d with
  | [] => [(k, v)]
  | (k', v') :: d' =>
      if String.eqb k' k then (k', v) :: d'
      else (k', v') :: dict_setitem k v d'
  end.

(** The comprehension [{k: f(v) for k, v in src.items()}]. *)
Definition dict_comp {U V} (f : U → V) (src : dict U) : dict V :=
  fold_left (λ d kv, dict_setitem kv.1 (f kv.2) d) src [].

(** A keyword-argument mapping has pairwise distinct keys. *)
Definition kwargs_ok {V} (kwargs : dict V) : Prop := NoDup kwargs.*1.

(** ** The executable path handle *)

(** A [pathlib.Path], represented by the text [os.fspath] renders. A [str]
    argument is represented by the path it converts to. *)
Record Path := mkPath { fspath : string }.

(** Why spawning a child process failed: the executable is missing, it may
    not be executed, or the child could not be started for another reason
    (another error of the operating system, or an argument it refuses). *)
Inductive spawn_failure :=
| ExecutableMissing
| PermissionDenied
| OtherSpawnFailure.

(** What the operating system does with an argument vector: the child
    cannot be spawned; or it runs and exits, and what it wrote is text; or
    it runs and exits, and what it wrote cannot be decoded as text. *)
Inductive child_outcome :=
| SpawnFails (e : spawn_failure)
| Exits (returncode : Z) (stdout stderr : string)
| ExitsUndecodable (returncode : Z).

(** The host: the default path resolver, what the file system answers about
    a path (does it exist, is it a directory, may it be executed), and the
    processes. *)
Record env := mkEnv {
  get_sagacmd_default : Path;
  path_exists : Path → bool;
  path_is_dir : Path → bool;
  path_is_executable : Path → bool;
  child : list string → child_outcome
}.

Inductive exn :=
| PathDoesNotExist
| IsADirectoryError
| NotExecutable
| SpawnError (e : spawn_failure)
| CalledProcessError (returncode : Z)
| UnicodeDecodeError
| AttributeError.

Inductive result (A : Type) :=
| Ok (a : A)
| Raise (e : exn).
Arguments Ok {A} a.
Arguments Raise {A} e.

Record SAGACMD := mkSAGACMD { saga_cmd_path : Path }.

(** [SAGACMD.__str__]. *)
Definition SAGACMD_str (c : SAGACMD) : string := fspath (saga_cmd_path c).

(** ** Flag *)

Record Flag := mkFlag { flag : option string }.

(** [Flag.__str__]. *)
Definition Flag_str (self : Flag) : string :=
  match flag self with
  | None => ""
  | Some s => if negb (startswith s "--") then "--" +:+ s else s
  end.

(** [Flag.__bool__]. *)
Definition Flag_bool (self : Flag) : bool :=
  match flag self with
  | None => false
  | Some _ => true
  end.

(** The right operand of [==]: a plain string or another [Flag]. *)
Inductive operand :=
| OpStr (s : string)
| OpFlag (f : Flag).

(** [str.__eq__]: [None] stands for [NotImplemented]. *)
Definition str_eq (s : string) (other : operand) : option bool :=
  match other with
  | OpStr t => Some (String.eqb s t)
  | OpFlag _ => None
  end.

(** [Flag.__eq__]: [str(self) == other]. The comparison first asks
    [str.__eq__]; when that declines, Python asks the reflected
    [other.__eq__(str(self))], which for a [Flag] compares [str(other)]
    with the string. *)
Definition Flag_eq (self : Flag) (other : operand) : bool :=
  match str_eq (Flag_str self) other with
  | Some b => b
  | None =>
      match other with
      | OpFlag g => String.eqb (Flag_str g) (Flag_str self)
      | OpStr _ => false
      end
  end.

(** The canonical string form of an operand: a [Flag] renders through
    [Flag_str], a plain string through the [Flag] built from it. *)
Definition canonical (o : operand) : string :=
  match o with
  | OpStr s => Flag_str (mkFlag (Some s))
  | OpFlag f => Flag_str f
  end.

(** ** Parameters *)

Section Saga.

(** [str.upper], the built-in of the host Python, taken as it is. *)
Variable str_upper : string → string.

Record Parameters := mkParameters {
  items : dict string;
  _params : list string
}.

(** ['-{K}={v}'.format(K=k.upper(), v=v)]. *)
Definition token (kv : string * string) : string :=
  "-" +:+ str_upper kv.1 +:+ "=" +:+ kv.2.

(** [Parameters.__init__]. *)
Definition Parameters_init (kwargs : dict value) : Parameters :=
  let d := dict_comp str kwargs in
  {| items := d; _params := map token d |}.

(** [Parameters.__iter__]. *)
Definition Parameters_iter (self : Parameters) : list string := _params self.

(** [Parameters.__str__]. *)
Definition Parameters_str (self : Parameters) : string :=
  String.concat " " (_params self).

(** ** Command *)

(** What [Command.__init__] receives: the path handle, the flag, a
    [Library] object (only its name matters), or a string. *)
Inductive arg :=
| ASAGACMD (c : SAGACMD)
| AFlag (f : Flag)
| ALibrary (library : string)
| AStr (s : string).

(** Truth value of an argument: only [Flag] and [str] define one, every
    other object is true. *)
Definition truthy (a : arg) : bool :=
  match a with
  | ASAGACMD _ => true
  | AFlag f => Flag_bool f
  | ALibrary _ => true
  | AStr s => negb (String.eqb s "")
  end.

(** [str(arg)]. *)
Definition arg_str (a : arg) : string :=
  match a with
  | ASAGACMD c => SAGACMD_str c
  | AFlag f => Flag_str f
  | ALibrary library => library
  | AStr s => s
  end.

Record Command := mkCommand { args : list string }.

(** [Command.__init__]. *)
Definition Command_init (a : list arg) : Command :=
  {| args := map arg_str (List.filter truthy a) |}.

(** [Command.__str__]. *)
Definition Command_str (self : Command) : string :=
  String.concat " " (args self).

Record CompletedProcess := mkCompletedProcess {
  cp_args : list string;
  returncode : Z;
  stdout : string;
  stderr : string
}.

(** ** Output *)

(** Modelled from the spec: the typed result constructors [Raster] and
    [Vector] of the [objects] module, single-argument constructors that
    accept a path-like string and return a handle wrapping it. *)
Record Raster := mkRaster { raster_path : string }.
Record Vector := mkVector { vector_path : string }.

Record Output := mkOutput {
  completed_process : CompletedProcess;
  parameters : Parameters;
  text : string
}.

(** The dataclass constructor followed by [Output.__post_init__]. *)
Definition Output_init (cp : CompletedProcess) (ps : Parameters) : Output :=
  {| completed_process := cp; parameters := ps; text := stdout cp |}.

(** [if isinstance(parameters, str): parameters = [parameters]]. *)
Definition requested (names : string + list string) : list string :=
  match names with
  | inl s => [s]
  | inr l => l
  end.

(** [k in parameters]. *)
Definition name_in (k : string) (names : list string) : bool :=
  existsb (String.eqb k) names.

(** [Output.get_raster]. *)
Definition get_raster (self : Output) (names : string + list string)
  : list Raster :=
  map (λ kv, mkRaster kv.2)
      (List.filter (λ kv, name_in kv.1 (requested names))
                   (items (parameters self))).

(** [Output.get_vector]. *)
Definition get_vector (self : Output) (names : string + list string)
  : list Vector :=
  map (λ kv, mkVector kv.2)
      (List.filter (λ kv, name_in kv.1 (requested names))
                   (items (parameters self))).

(** ** The heap of shared objects and the monad of effects *)

Abbreviation loc := nat.

Inductive obj :=
| OFlag (f : Flag)
| OSAGA (saga_cmd : SAGACMD) (_flag : loc)
| OLibrary (saga_cmd : SAGACMD) (_flag : loc) (library : string)
| OTool (saga_cmd : SAGACMD) (_flag : loc) (library : loc) (tool : string)
        (parameters : Parameters).

(** The objects allocated so far, and the argument vector of every child
    process spawned so far, latest first. *)
Record state := mkState {
  heap : gmap nat obj;
  spawned : list (list string)
}.

(** A computation may change the state and either returns or raises; what
    it changed before raising stays changed. *)
Definition M (A : Type) : Type := state → result A * state.

Definition ret {A} (a : A) : M A := λ σ, (Ok a, σ).

Definition raise {A} (e : exn) : M A := λ σ, (Raise e, σ).

Definition bind {A B} (m : M A) (k : A → M B) : M B :=
  λ σ, match m σ with
       | (Ok a, σ') => k a σ'
       | (Raise e, σ') => (Raise e, σ')
       end.

Notation "x <- m ;; k" := (bind m (λ x, k))
  (at level 100, m at next level, right associativity).

Definition alloc (o : obj) : M loc :=
  λ σ, let l := fresh (dom (heap σ)) in
       (Ok l, {| heap := <[l := o]> (heap σ); spawned := spawned σ |}).

Definition load (l : loc) : M obj :=
  λ σ, match heap σ !! l with
       | Some o => (Ok o, σ)
       | None => (Raise AttributeError, σ)
       end.

Definition store (l : loc) (o : obj) : M unit :=
  λ σ, (Ok tt, {| heap := <[l := o]> (heap σ); spawned := spawned σ |}).

(** Dereference a [Flag]. *)
Definition load_Flag (l : loc) : M Flag :=
  o <- load l ;;
  match o with
  | OFlag f => ret f
  | _ => raise AttributeError
  end.

(** [str(library)] for a [Library] object: [Library.__str__]. *)
Definition Library_str (l : loc) : M string :=
  o <- load l ;;
  match o with
  | OLibrary _ _ library => ret library
  | _ => raise AttributeError
  end.

(** ** Validation of the executable path *)

(** Modelled from the spec: [check_is_file] of [src.utils], the existence
    check followed by the not-a-directory check, each with its own error
    kind. *)
Definition check_is_file (E : env) (p : Path) : M unit :=
  if negb (path_exists E p) then raise PathDoesNotExist
  else if path_is_dir E p then raise IsADirectoryError
  else ret tt.

(** Modelled from the spec: [check_is_executable] of [src.utils], the
    executability check with its own error kind. *)
Definition check_is_executable (E : env) (p : Path) : M unit :=
  if negb (path_is_executable E p) then raise NotExecutable
  else ret tt.

(** [SAGACMD.__init__]. *)
Definition SAGACMD_init (E : env) (saga_cmd_path : option Path) : M SAGACMD :=
  let p := match saga_cmd_path with
           | None => get_sagacmd_default E
           | Some p => p
           end in
  _ <- check_is_file E p ;;
  _ <- check_is_executable E p ;;
  ret (mkSAGACMD p).

(** ** Execution *)

(** [subprocess.run(args, capture_output=True, text=True, check=check)]:
    a child that cannot be spawned raises; a child that ran is recorded;
    collecting its output as text raises when the output cannot be
    decoded; otherwise its result is returned, unless [check] is set and
    it exited non-zero. *)
Definition subprocess_run (E : env) (argv : list string) (check : bool)
  : M CompletedProcess :=
  λ σ, match child E argv with
       | SpawnFails e => (Raise (SpawnError e), σ)
       | Exits rc out err =>
           let σ' := {| heap := heap σ; spawned := argv :: spawned σ |} in
           if check && negb (rc =? 0)%Z
           then (Raise (CalledProcessError rc), σ')
           else (Ok (mkCompletedProcess argv rc out err), σ')
       | ExitsUndecodable rc =>
           (Raise UnicodeDecodeError,
            {| heap := heap σ; spawned := argv :: spawned σ |})
       end.

(** [Command.execute]. *)
Definition Command_execute (E : env) (self : Command) : M CompletedProcess :=
  subprocess_run E (args self) false.

(** ** The executable levels

    A constructor allocates its object once [__init__] has run to its end:
    a constructor that raises leaves no object behind. *)

(** The [saga_cmd] argument of a level's constructor: a path (or nothing),
    or a ready [SAGACMD]. *)
Definition resolve_saga_cmd (E : env) (saga_cmd : option Path + SAGACMD)
  : M SAGACMD :=
  match saga_cmd with
  | inr c => ret c
  | inl p => SAGACMD_init E p
  end.

(** The [flag] argument of a level's constructor: a raw string (or
    nothing), wrapped in a new [Flag], or an existing [Flag] object, taken
    as it is. *)
Definition resolve_flag (flag : option string + loc) : M loc :=
  match flag with
  | inr f => ret f
  | inl raw => alloc (OFlag (mkFlag raw))
  end.

(** [SAGA.__init__]. *)
Definition SAGA_init (E : env) (saga_cmd : option Path + SAGACMD)
    (flag : option string + loc) : M loc :=
  c <- resolve_saga_cmd E saga_cmd ;;
  f <- resolve_flag flag ;;
  alloc (OSAGA c f).

(** [Library.__init__]. *)
Definition Library_init (E : env) (library : string)
    (saga_cmd : option Path + SAGACMD) (flag : option string + loc) : M loc :=
  c <- resolve_saga_cmd E saga_cmd ;;
  f <- resolve_flag flag ;;
  alloc (OLibrary c f library).

(** [Tool.__init__]. *)
Definition Tool_init (E : env) (library : loc) (tool : string)
    (saga_cmd : option Path + SAGACMD) (flag : option string + loc) : M loc :=
  c <- resolve_saga_cmd E saga_cmd ;;
  f <- resolve_flag flag ;;
  alloc (OTool c f library tool (Parameters_init [])).

(** The [flag] property; the three classes define the same getter. *)
Definition get_flag (self : loc) : M loc :=
  o <- load self ;;
  match o with
  | OSAGA _ f | OLibrary _ f _ | OTool _ f _ _ _ => ret f
  | OFlag _ => raise AttributeError
  end.

(** [self._flag = f]. *)
Definition set__flag (self : loc) (f : loc) : M unit :=
  o <- load self ;;
  match o with
  | OSAGA c _ => store self (OSAGA c f)
  | OLibrary c _ library => store self (OLibrary c f library)
  | OTool c _ library tool ps => store self (OTool c f library tool ps)
  | OFlag _ => raise AttributeError
  end.

(** The [flag] setter; the three classes define the same one. *)
Definition flag_set (self : loc) (flag : option string) : M unit :=
  f <- alloc (OFlag (mkFlag flag)) ;;
  set__flag self f.

(** The [flag] deleter; the three classes define the same one. *)
Definition flag_del (self : loc) : M unit :=
  f <- alloc (OFlag (mkFlag None)) ;;
  set__flag self f.

(** [SAGA.command]. *)
Definition SAGA_command (self : loc) : M Command :=
  o <- load self ;;
  match o with
  | OSAGA c fl =>
      f <- load_Flag fl ;;
      ret (Command_init [ASAGACMD c; AFlag f])
  | _ => raise AttributeError
  end.

(** [Library.command]. *)
Definition Library_command (self : loc) : M Command :=
  o <- load self ;;
  match o with
  | OLibrary c fl library =>
      f <- load_Flag fl ;;
      ret (Command_init [ASAGACMD c; AFlag f; AStr library])
  | _ => raise AttributeError
  end.

(** [Tool.command]. *)
Definition Tool_command (self : loc) : M Command :=
  o <- load self ;;
  match o with
  | OTool c fl lib tool ps =>
      f <- load_Flag fl ;;
      library <- Library_str lib ;;
      ret (Command_init ([ASAGACMD c; AFlag f; ALibrary library; AStr tool]
                           ++ map AStr (Parameters_iter ps)))
  | _ => raise AttributeError
  end.

(** The [command] property, dispatched on the class of [self]. *)
Definition command (self : loc) : M Command :=
  o <- load self ;;
  match o with
  | OSAGA _ _ => SAGA_command self
  | OLibrary _ _ _ => Library_command self
  | OTool _ _ _ _ _ => Tool_command self
  | OFlag _ => raise AttributeError
  end.

(** [SAGA.get_library]. *)
Definition get_library (E : env) (self : loc) (library : string) : M loc :=
  o <- load self ;;
  match o with
  | OSAGA c f => Library_init E library (inr c) (inr f)
  | _ => raise AttributeError
  end.

(** [Library.get_tool]. *)
Definition get_tool (E : env) (self : loc) (tool : string) : M loc :=
  o <- load self ;;
  match o with
  | OLibrary c f _ => Tool_init E self tool (inr c) (inr f)
  | _ => raise AttributeError
  end.

(** [SAGA.get_tool]. *)
Definition SAGA_get_tool (E : env) (self : loc) (library tool : string)
  : M loc :=
  library_ <- get_library E self library ;;
  o <- load self ;;
  match o with
  | OSAGA c f => Tool_init E library_ tool (inr c) (inr f)
  | _ => raise AttributeError
  end.

(** [Tool.set_params]. *)
Definition set_params (self : loc) (kwargs : dict value) : M unit :=
  o <- load self ;;
  match o with
  | OTool c f lib tool _ => store self (OTool c f lib tool (Parameters_init kwargs))
  | _ => raise AttributeError
  end.

(** The [parameters] attribute of a [Tool]. *)
Definition get_parameters (self : loc) : M Parameters :=
  o <- load self ;;
  match o with
  | OTool _ _ _ _ ps => ret ps
  | _ => raise AttributeError
  end.

(** [SAGA.run_command]. *)
Definition SAGA_run_command (E : env) (self : loc) : M Output :=
  c <- SAGA_command self ;;
  cp <- Command_execute E c ;;
  ret (Output_init cp (Parameters_init [])).

(** [Library.run_command]. *)
Definition Library_run_command (E : env) (self : loc) : M Output :=
  c <- Library_command self ;;
  cp <- Command_execute E c ;;
  ret (Output_init cp (Parameters_init [])).

(** [Tool.run_command]. *)
Definition Tool_run_command (E : env) (self : loc) (kwargs : dict value)
  : M Output :=
  _ <- match kwargs with
       | [] => ret tt
       | _ :: _ => set_params self kwargs
       end ;;
  c <- Tool_command self ;;
  cp <- Command_execute E c ;;
  ps <- get_parameters self ;;
  ret (Output_init cp ps).

(** ** Views used to state and prove the properties *)

(** The [_flag] field of a level object replaced. *)
Definition with_flag (o : obj) (f : loc) : obj :=
  match o with
  | OSAGA c _ => OSAGA c f
  | OLibrary c _ library => OLibrary c f library
  | OTool c _ library tool ps => OTool c f library tool ps
  | OFlag g => OFlag g
  end.

(** Is the object one of the three executable levels? *)
Definition is_level (o : obj) : bool :=
  match o with
  | OFlag _ => false
  | _ => true
  end.

(** What [command] computes, read off the heap. *)
Definition command_of (h : gmap nat obj) (self : loc) : option Command :=
  match h !! self with
  | Some (OSAGA c fl) =>
      match h !! fl with
      | Some (OFlag f) => Some (Command_init [ASAGACMD c; AFlag f])
      | _ => None
      end
  | Some (OLibrary c fl library) =>
      match h !! fl with
      | Some (OFlag f) => Some (Command_init [ASAGACMD c; AFlag f; AStr library])
      | _ => None
      end
  | Some (OTool c fl lib tool ps) =>
      match h !! fl, h !! lib with
      | Some (OFlag f), Some (OLibrary _ _ library) =>
          Some (Command_init ([ASAGACMD c; AFlag f; ALibrary library; AStr tool]
                                ++ map AStr (Parameters_iter ps)))
      | _, _ => None
      end
  | _ => None
  end.

(** The flag token of a command: present iff the flag is set. *)
Definition flag_tokens (raw : option string) : list string :=
  match raw with
  | None => []
  | Some _ => [Flag_str (mkFlag raw)]
  end.

(** The token a name contributes: none when the name is empty. *)
Definition name_tokens (name : string) : list string :=
  if String.eqb name "" then [] else [name].

(** The three levels of one descent, and what may be done to a flag. *)
Inductive level := Program | Module_ | Operation.

Inductive flag_update :=
| SetFlag (raw : option string)
| ClearFlag.

Definition update_flag (u : flag_update) (self : loc) : M unit :=
  match u with
  | SetFlag raw => flag_set self raw
  | ClearFlag => flag_del self
  end.

(** Build a program, descend to a module and to an operation of it, and
    give the operation its parameters; return the three instances. *)
Definition descend (E : env) (c : SAGACMD) (raw : option string)
    (library tool : string) (kwargs : dict value) : M (loc * loc * loc) :=
  p <- SAGA_init E (inr c) (inl raw) ;;
  l <- get_library E p library ;;
  t <- get_tool E l tool ;;
  _ <- set_params t kwargs ;;
  ret (p, l, t).

Definition pick (x : level) (plt : loc * loc * loc) : loc :=
  match x with
  | Program => plt.1.1
  | Module_ => plt.1.2
  | Operation => plt.2
  end.

(** The raw value a flag update leaves on the instance. *)
Definition new_raw (u : flag_update) : option string :=
  match u with
  | SetFlag raw => raw
  | ClearFlag => None
  end.

(** The tokens a level of a descent is expected to produce, given the raw
    value of its own flag. *)
Definition expected_args (x : level) (c : SAGACMD) (raw : option string)
    (library tool : string) (kwargs : dict value) : list string :=
  match x with
  | Program => [SAGACMD_str c] ++ flag_tokens raw
  | Module_ => [SAGACMD_str c] ++ flag_tokens raw ++ name_tokens library
  | Operation =>
      [SAGACMD_str c] ++ flag_tokens raw ++ [library] ++ name_tokens tool
        ++ Parameters_iter (Parameters_init kwargs)
  end.

(** The three instances of one descent as they stand in a state, each with
    the raw value of the flag it currently holds. *)
Definition chain (σ : state) (plt : loc * loc * loc) (c : SAGACMD)
    (library tool : string) (kwargs : dict value)
    (raws : level → option string) : Prop :=
  ∃ fp fl ft : loc,
    heap σ !! plt.1.1 = Some (OSAGA c fp)
    ∧ heap σ !! fp = Some (OFlag (mkFlag (raws Program)))
    ∧ heap σ !! plt.1.2 = Some (OLibrary c fl library)
    ∧ heap σ !! fl = Some (OFlag (mkFlag (raws Module_)))
    ∧ heap σ !! plt.2
      = Some (OTool c ft plt.1.2 tool (Parameters_init kwargs))
    ∧ heap σ !! ft = Some (OFlag (mkFlag (raws Operation)))
    ∧ plt.1.1 ≠ plt.1.2 ∧ plt.1.2 ≠ plt.2 ∧ plt.1.1 ≠ plt.2.

(** The flags of a descent after [x] has had its flag updated. *)
Definition raws_after (u : flag_update) (x : level)
    (raws : level → option string) : level → option string :=
  λ y, match x, y with
       | Program, Program | Module_, Module_ | Operation, Operation => new_raw u
       | _, _ => raws y
       end.

(** What running a command gives: the output built from the result of the
    child and the parameters, or the failure to spawn it, or the failure
    to decode what it wrote. *)
Definition executed (E : env) (argv : list string) (ps : Parameters)
    (σ : state) : result Output * state :=
  match child E argv with
  | Exits rc out err =>
      (Ok (Output_init (mkCompletedProcess argv rc out err) ps),
       {| heap := heap σ; spawned := argv :: spawned σ |})
  | SpawnFails f => (Raise (SpawnError f), σ)
  | ExitsUndecodable rc =>
      (Raise UnicodeDecodeError,
       {| heap := heap σ; spawned := argv :: spawned σ |})
  end.

(** A sequence of flag updates, each on one level of a descent. *)
Fixpoint apply_updates (us : list (level * flag_update))
    (plt : loc * loc * loc) : M unit :=
  match us with
  | [] => ret tt
  | xu :: us' =>
      _ <- update_flag xu.2 (pick xu.1 plt) ;;
      apply_updates us' plt
  end.

Fixpoint raws_after_all (us : list (level * flag_update))
    (raws : level → option string) : level → option string :=
  match us with
  | [] => raws
  | xu :: us' => raws_after_all us' (raws_after xu.2 xu.1 raws)
  end.

(** ** A concrete host and descent *)

Definition example_env : env :=
  mkEnv (mkPath "saga_cmd") (λ _, true) (λ _, false) (λ _, true)
        (λ _, Exits 1 "usage" "").

(** A host on which a child runs and writes bytes that are not text. *)
Definition undecodable_env : env :=
  mkEnv (mkPath "saga_cmd") (λ _, true) (λ _, false) (λ _, true)
        (λ _, ExitsUndecodable 0).

Definition example_saga_cmd : SAGACMD := mkSAGACMD (mkPath "saga_cmd").

Definition example_kwargs : dict value := [("elevation", VStr "dem.tif")].

(** The state a descent from the empty state ends in: the flag at 0, the
    program at 1, the module at 2, the operation at 3. *)
Definition example_state : state :=
  mkState
    (<[3 := OTool example_saga_cmd 0 2 "0" (Parameters_init example_kwargs)]>
       (<[2 := OLibrary example_saga_cmd 0 "ta_morphometry"]>
          (<[1 := OSAGA example_saga_cmd 0]> {[0 := OFlag (mkFlag None)]})))
    [].

(** ** Further operations of the source *)

(** [SAGACMD.__fspath__]. *)
Definition SAGACMD_fspath (c : SAGACMD) : string := SAGACMD_str c.

(** [SAGA.__truediv__]: a string descends to the library of that name, a
    [Library] object is returned as it is. *)
Definition SAGA_truediv (E : env) (self : loc) (library : string + loc)
  : M loc :=
  match library with
  | inl name => get_library E self name
  | inr l => ret l
  end.

(** [Library.__truediv__]: a string descends to the tool of that name, a
    [Tool] object is returned as it is. *)
Definition Library_truediv (E : env) (self : loc) (tool : string + loc)
  : M loc :=
  match tool with
  | inl name => get_tool E self name
  | inr t => ret t
  end.

(** [Tool.__str__]. *)
Definition Tool_str (self : loc) : M string :=
  o <- load self ;;
  match o with
  | OTool _ _ _ tool _ => ret tool
  | _ => raise AttributeError
  end.

(** [Tool.__call__]. *)
Definition Tool_call (E : env) (self : loc) (kwargs : dict value) : M Output :=
  Tool_run_command E self kwargs.

(** [Command.__iter__]. *)
Definition Command_iter (self : Command) : list string := args self.

(** [Command.__getitem__], that is [self.args[idx]]: a negative index
    counts from the end; [None] stands for [IndexError]. *)
Definition Command_getitem (self : Command) (idx : Z) : option string :=
  let n := Z.of_nat (length (args self)) in
  let i := if (idx <? 0)%Z then (idx + n)%Z else idx in
  if (i <? 0)%Z then None else args self !! Z.to_nat i.

(** * Properties *)

(** ** Strings *)

Lemma append_String (c : ascii) (s t : string) :
  String c s +:+ t = String c (s +:+ t).
Proof. reflexivity. Qed.

Lemma append_empty (t : string) : "" +:+ t = t.
Proof. reflexivity. Qed.

Lemma prefix_spec (p s : string) :
  String.prefix p s = true ↔ ∃ t, s = p +:+ t.
Proof.
  revert s. induction p as [|a p IH]; intros s.
  - destruct s; simpl; split; eauto.
  - destruct s as [|b s]; simpl.
    + split; [done | intros [t Ht]; discriminate].
    + setoid_rewrite append_String.
      destruct (Ascii.ascii_dec a b) as [->|Hab].
      * rewrite IH. split; intros [t Ht]; exists t; congruence.
      * split; [done | intros [t Ht]; congruence].
Qed.

Lemma eqb_empty_false (s : string) : s ≠ "" → String.eqb s "" = false.
Proof. intros H. by apply String.eqb_neq. Qed.

Lemma token_nonempty (kv : string * string) : token kv ≠ "".
Proof. done. Qed.

Example ascii_upper_elevation : ascii_upper "elevation" = "ELEVATION".
Proof. reflexivity. Qed.

Example ascii_upper_mixed : ascii_upper "dem_1a" = "DEM_1A".
Proof. reflexivity. Qed.

(** ** Dictionaries *)

Lemma dict_setitem_new {V} (k : string) (v : V) (d : dict V) :
  k ∉ d.*1 → dict_setitem k v d = d ++ [(k, v)].
Proof.
  induction d as [|[k' v'] d IH]; simpl; intros Hk; [done|].
  apply not_elem_of_cons in Hk as [Hne Hk].
  destruct (String.eqb_spec k' k) as [->|_]; [done|].
  by rewrite IH.
Qed.

Lemma dict_fold_distinct {U V} (f : U → V) (src : dict U) (acc : dict V) :
  NoDup (acc.*1 ++ src.*1) →
  fold_left (λ d kv, dict_setitem kv.1 (f kv.2) d) src acc
  = acc ++ map (λ kv, (kv.1, f kv.2)) src.
Proof.
  revert acc. induction src as [|[k u] src IH]; intros acc Hnd; simpl.
  - by rewrite app_nil_r.
  - simpl in Hnd. apply NoDup_app in Hnd as (Hacc & Hdisj & Hsrc).
    rewrite dict_setitem_new.
    + rewrite IH.
      * by rewrite <- app_assoc.
      * rewrite fmap_app. simpl. rewrite <- app_assoc. simpl.
        apply NoDup_app. split_and!; [done| |done].
        intros x Hx. by apply Hdisj.
    + intros Hin. apply (Hdisj k Hin). left.
Qed.

Lemma dict_comp_distinct {U V} (f : U → V) (kwargs : dict U) :
  kwargs_ok kwargs → dict_comp f kwargs = map (λ kv, (kv.1, f kv.2)) kwargs.
Proof.
  intros Hok. unfold dict_comp. by rewrite dict_fold_distinct.
Qed.

Lemma name_in_spec (k : string) (names : list string) :
  name_in k names = true ↔ k ∈ names.
Proof.
  unfold name_in. rewrite existsb_exists. split.
  - intros (x & Hx & Heq). apply String.eqb_eq in Heq as ->.
    by apply list_elem_of_In.
  - intros Hk. exists k. split; [by apply list_elem_of_In | apply String.eqb_refl].
Qed.

(** ** Parameters *)

Lemma Parameters_init_distinct (kwargs : dict value) :
  kwargs_ok kwargs →
  Parameters_init kwargs
  = {| items := map (λ kv, (kv.1, str kv.2)) kwargs;
       _params := map (λ kv, "-" +:+ str_upper kv.1 +:+ "=" +:+ str kv.2)
                      kwargs |}.
Proof.
  intros Hok. unfold Parameters_init.
  rewrite (dict_comp_distinct str kwargs Hok).
  f_equal. rewrite map_map. done.
Qed.

Lemma Parameters_tokens_nonempty (kwargs : dict value) :
  Forall (λ tok, tok ≠ "") (Parameters_iter (Parameters_init kwargs)).
Proof.
  unfold Parameters_iter, Parameters_init; simpl.
  apply Forall_forall. intros tok Htok.
  apply list_elem_of_In, in_map_iff in Htok as (kv & <- & _).
  apply token_nonempty.
Qed.

(** C1. Iterating the [Parameters] built from a keyword-argument mapping
    yields exactly one token per supplied argument, in the order the
    arguments were supplied, each token being ["-"], the key uppercased by
    [str.upper] whatever the characters of the key, ["="], and the string
    form of the value; the mapping keeps each key as
    supplied with the string form of its value; and building from no
    argument gives the empty mapping and no token. *)
Theorem Parameters_iter_tokens (kwargs : dict value) :
  kwargs_ok kwargs →
  Parameters_iter (Parameters_init kwargs)
  = map (λ kv, "-" +:+ str_upper kv.1 +:+ "=" +:+ str kv.2) kwargs
  ∧ length (Parameters_iter (Parameters_init kwargs)) = length kwargs
  ∧ items (Parameters_init kwargs) = map (λ kv, (kv.1, str kv.2)) kwargs
  ∧ items (Parameters_init []) = []
  ∧ Parameters_iter (Parameters_init []) = [].
Proof.
  intros Hok. rewrite (Parameters_init_distinct kwargs Hok).
  unfold Parameters_iter; simpl. rewrite length_map. done.
Qed.

(** ** Flag *)

(** C3. A raw flag that already starts with ["--"] is its own canonical
    form; any other raw string gets ["--"] prepended; an absent raw value
    renders as the empty string. *)
Theorem Flag_str_canonical :
  (∀ t, Flag_str (mkFlag (Some ("--" +:+ t))) = "--" +:+ t)
  ∧ (∀ s, (∀ t, s ≠ "--" +:+ t) → Flag_str (mkFlag (Some s)) = "--" +:+ s)
  ∧ Flag_str (mkFlag None) = "".
Proof.
  split; [|split].
  - intros t.
    assert (Hp : String.prefix "--" ("--" +:+ t) = true).
    { apply prefix_spec. by exists t. }
    unfold Flag_str, startswith; cbn [flag]. by rewrite Hp.
  - intros s Hs. unfold Flag_str, startswith; cbn [flag].
    destruct (String.prefix "--" s) eqn:Hp; [|done].
    apply prefix_spec in Hp as [t ->]. by destruct (Hs t).
  - reflexivity.
Qed.

Example Flag_str_help : Flag_str (mkFlag (Some "help")) = "--help".
Proof. reflexivity. Qed.

Example Flag_str_prefixed : Flag_str (mkFlag (Some "--cores=8")) = "--cores=8".
Proof. reflexivity. Qed.

Example Flag_str_empty_raw : Flag_str (mkFlag (Some "")) = "--".
Proof. reflexivity. Qed.

Lemma Flag_str_set_nonempty (s : string) : Flag_str (mkFlag (Some s)) ≠ "".
Proof.
  unfold Flag_str, startswith; cbn [flag].
  destruct (String.prefix "--" s) eqn:Hp; simpl; [|done].
  apply prefix_spec in Hp as [t ->]. done.
Qed.

(** C9, as the claim states it, fails: the flag built from ["help"] and the
    plain string ["help"] have the same canonical form ["--help"], yet the
    equality test says they differ. *)
Lemma Flag_eq_plain_string_counterexample :
  ¬ (Flag_eq (mkFlag (Some "help")) (OpStr "help") = true
     ↔ Flag_str (mkFlag (Some "help")) = canonical (OpStr "help")).
Proof. intros [_ H]. specialize (H eq_refl). discriminate H. Qed.

(** C9, amended. Two flags are equal iff their canonical string forms
    match; a flag and a plain string are equal iff the flag's canonical
    form is that very string. *)
Theorem Flag_eq_spec (self : Flag) :
  (∀ g, Flag_eq self (OpFlag g) = true ↔ Flag_str self = Flag_str g)
  ∧ (∀ s, Flag_eq self (OpStr s) = true ↔ Flag_str self = s).
Proof.
  split.
  - intros g. unfold Flag_eq; simpl. rewrite String.eqb_eq. split; congruence.
  - intros s. unfold Flag_eq; simpl. apply String.eqb_eq.
Qed.

Example Flag_eq_canonical_string :
  Flag_eq (mkFlag (Some "help")) (OpStr "--help") = true.
Proof. reflexivity. Qed.

Example Flag_eq_two_flags :
  Flag_eq (mkFlag (Some "help")) (OpFlag (mkFlag (Some "--help"))) = true.
Proof. reflexivity. Qed.

(** ** Output *)

Lemma filter_items_keys (names : list string) (kwargs : dict value) :
  List.filter (λ kv : string * string, name_in kv.1 names)
              (map (λ kv, (kv.1, str kv.2)) kwargs)
  = map (λ kv, (kv.1, str kv.2))
        (List.filter (λ kv : string * value, name_in kv.1 names) kwargs).
Proof.
  induction kwargs as [|[k v] kw IH]; simpl; [done|].
  destruct (name_in k names); simpl; by rewrite IH.
Qed.

Lemma filter_none {A} (f : A → bool) (l : list A) :
  (∀ x, x ∈ l → f x = false) → List.filter f l = [].
Proof.
  induction l as [|x l IH]; simpl; intros H; [done|].
  rewrite (H x) by left. apply IH. intros y Hy. apply H. by right.
Qed.

(** C4. [get_raster] and [get_vector], asked for one name or several,
    return one handle per stored entry whose key is among the requested
    names, each wrapping the stored string value, in the insertion order of
    the parameters whatever the order of the request; names that match no
    key give no handle and no error. From
    [{elevation: 'out.tif', grid: 'grid.tif', method: '0'}], asking for
    [elevation] and [grid] returns the handles of ['out.tif'] then
    ['grid.tif'], and asking for [missing] returns nothing. *)
Theorem get_raster_get_vector_spec (cp : CompletedProcess)
    (kwargs : dict value) (names : string + list string) :
  kwargs_ok kwargs →
  let out := Output_init cp (Parameters_init kwargs) in
  let hit := List.filter (λ kv, name_in kv.1 (requested names)) kwargs in
  let ex := Output_init cp (Parameters_init
              [("elevation", VStr "out.tif"); ("grid", VStr "grid.tif");
               ("method", VStr "0")]) in
  get_raster out names = map (λ kv, mkRaster (str kv.2)) hit
  ∧ get_vector out names = map (λ kv, mkVector (str kv.2)) hit
  ∧ (∀ kv, kv ∈ hit ↔ kv ∈ kwargs ∧ kv.1 ∈ requested names)
  ∧ (∀ names', (∀ k, k ∈ requested names' ↔ k ∈ requested names) →
       get_raster out names' = get_raster out names
       ∧ get_vector out names' = get_vector out names)
  ∧ ((∀ k, k ∈ requested names → k ∉ kwargs.*1) →
       get_raster out names = [] ∧ get_vector out names = [])
  ∧ get_raster ex (inr ["elevation"; "grid"])
    = [mkRaster "out.tif"; mkRaster "grid.tif"]
  ∧ get_raster ex (inr ["grid"; "elevation"])
    = [mkRaster "out.tif"; mkRaster "grid.tif"]
  ∧ get_vector ex (inr ["elevation"; "grid"])
    = [mkVector "out.tif"; mkVector "grid.tif"]
  ∧ get_raster ex (inl "grid") = [mkRaster "grid.tif"]
  ∧ get_raster ex (inr ["missing"]) = []
  ∧ get_vector ex (inr ["missing"]) = [].
Proof.
  intros Hok out hit ex.
  assert (Hr : ∀ n, get_raster out n
    = map (λ kv, mkRaster (str kv.2))
          (List.filter (λ kv, name_in kv.1 (requested n)) kwargs)).
  { intros n. unfold get_raster, out, Output_init; cbn [parameters].
    rewrite (Parameters_init_distinct kwargs Hok); cbn [items].
    rewrite filter_items_keys, map_map. done. }
  assert (Hv : ∀ n, get_vector out n
    = map (λ kv, mkVector (str kv.2))
          (List.filter (λ kv, name_in kv.1 (requested n)) kwargs)).
  { intros n. unfold get_vector, out, Output_init; cbn [parameters].
    rewrite (Parameters_init_distinct kwargs Hok); cbn [items].
    rewrite filter_items_keys, map_map. done. }
  assert (Hsame : ∀ n n', (∀ k, k ∈ requested n' ↔ k ∈ requested n) →
    List.filter (λ kv : string * value, name_in kv.1 (requested n')) kwargs
    = List.filter (λ kv, name_in kv.1 (requested n)) kwargs).
  { intros n n' Hn. apply filter_ext. intros [k v]; simpl.
    apply eq_true_iff_eq. rewrite !name_in_spec. apply Hn. }
  split_and!; try reflexivity.
  - apply Hr.
  - apply Hv.
  - intros kv. unfold hit.
    rewrite list_elem_of_In, filter_In, name_in_spec, <- list_elem_of_In.
    done.
  - intros names' Hn. rewrite !Hr, !Hv, (Hsame names names' Hn). done.
  - intros Hmiss. rewrite Hr, Hv. fold hit.
    replace hit with (@nil (string * value)); [done|].
    symmetry. apply filter_none. intros [k v] Hkv; simpl.
    destruct (name_in k (requested names)) eqn:Hin; [|done].
    apply name_in_spec in Hin. destruct (Hmiss k Hin).
    apply list_elem_of_fmap. by exists (k, v).
Qed.

(** ** The heap and the levels *)

Lemma fresh_lookup (h : gmap nat obj) : h !! fresh (dom h) = None.
Proof. apply not_elem_of_dom, is_fresh. Qed.

Lemma fresh_ne (h : gmap nat obj) (l : loc) (o : obj) :
  h !! l = Some o → fresh (dom h) ≠ l.
Proof. intros Hl Heq. rewrite <- Heq, fresh_lookup in Hl. discriminate. Qed.

Lemma command_eq (self : loc) (σ : state) :
  command self σ
  = (match command_of (heap σ) self with
     | Some c => Ok c
     | None => Raise AttributeError
     end, σ).
Proof.
  unfold command, command_of, SAGA_command, Library_command, Tool_command,
    load_Flag, Library_str, bind, load, ret, raise.
  destruct (heap σ !! self) as [[f|c fl|c fl library|c fl lib tool ps]|] eqn:Hs;
    try reflexivity; rewrite Hs.
  - destruct (heap σ !! fl) as [[]|]; reflexivity.
  - destruct (heap σ !! fl) as [[]|]; reflexivity.
  - destruct (heap σ !! fl) as [[]|]; try reflexivity;
      destruct (heap σ !! lib) as [[]|]; reflexivity.
Qed.

Lemma level_command_eq (self : loc) (σ : state) :
  match heap σ !! self with
  | Some (OSAGA _ _) => SAGA_command self σ = command self σ
  | Some (OLibrary _ _ _) => Library_command self σ = command self σ
  | Some (OTool _ _ _ _ _) => Tool_command self σ = command self σ
  | _ => True
  end.
Proof.
  unfold command, bind, load.
  destruct (heap σ !! self) as [[]|] eqn:Hs; done.
Qed.

Lemma filter_truthy_tokens (toks : list string) :
  Forall (λ tok, tok ≠ "") toks →
  List.filter truthy (map AStr toks) = map AStr toks.
Proof.
  induction 1 as [|tok toks Htok _ IH]; simpl; [done|].
  rewrite (eqb_empty_false tok Htok); simpl. by rewrite IH.
Qed.

Lemma AStr_tokens (toks : list string) : map arg_str (map AStr toks) = toks.
Proof. rewrite map_map. apply map_id. Qed.

Lemma Operation_args (c : SAGACMD) (f : Flag) (library tool : string)
    (toks : list string) :
  Forall (λ tok, tok ≠ "") toks →
  map arg_str
      (List.filter truthy
         ([ASAGACMD c; AFlag f; ALibrary library; AStr tool] ++ map AStr toks))
  = [SAGACMD_str c] ++ flag_tokens (flag f) ++ [library] ++ name_tokens tool
      ++ toks.
Proof.
  intros Htoks. pose proof (filter_truthy_tokens toks Htoks) as Hf.
  unfold name_tokens.
  destruct f as [[s|]]; simpl; destruct (String.eqb tool ""); simpl;
    rewrite Hf, AStr_tokens; reflexivity.
Qed.

Lemma Command_init_args (x : level) (c : SAGACMD) (f : Flag)
    (library tool : string) (kwargs : dict value) :
  Command_init
    match x with
    | Program => [ASAGACMD c; AFlag f]
    | Module_ => [ASAGACMD c; AFlag f; AStr library]
    | Operation =>
        [ASAGACMD c; AFlag f; ALibrary library; AStr tool]
          ++ map AStr (Parameters_iter (Parameters_init kwargs))
    end
  = {| args := expected_args x c (flag f) library tool kwargs |}.
Proof.
  unfold Command_init. f_equal. destruct x; cbn [expected_args].
  - destruct f as [[s|]]; reflexivity.
  - unfold name_tokens.
    destruct f as [[s|]]; simpl; destruct (String.eqb library ""); reflexivity.
  - apply Operation_args, Parameters_tokens_nonempty.
Qed.

Lemma chain_command (x : level) (σ : state) (plt : loc * loc * loc)
    (c : SAGACMD) (library tool : string) (kwargs : dict value)
    (raws : level → option string) :
  chain σ plt c library tool kwargs raws →
  command (pick x plt) σ
  = (Ok {| args := expected_args x c (raws x) library tool kwargs |}, σ).
Proof.
  intros (fp & fl & ft & Hp & Hfp & Hl & Hfl & Ht & Hft & _).
  rewrite command_eq. unfold command_of.
  destruct x; cbn [pick].
  - rewrite Hp, Hfp. do 2 f_equal.
    exact (Command_init_args Program c (mkFlag _) library tool kwargs).
  - rewrite Hl, Hfl. do 2 f_equal.
    exact (Command_init_args Module_ c (mkFlag _) library tool kwargs).
  - rewrite Ht, Hft, Hl. do 2 f_equal.
    exact (Command_init_args Operation c (mkFlag _) library tool kwargs).
Qed.

Lemma descend_chain (E : env) (c : SAGACMD) (raw : option string)
    (library tool : string) (kwargs : dict value) (σ0 : state) :
  ∃ plt σ,
    descend E c raw library tool kwargs σ0 = (Ok plt, σ)
    ∧ chain σ plt c library tool kwargs (λ _, raw)
    ∧ spawned σ = spawned σ0.
Proof.
  destruct σ0 as [h0 sp].
  set (f0 := fresh (dom h0)).
  set (h1 := <[f0 := OFlag (mkFlag raw)]> h0).
  set (p := fresh (dom h1)).
  set (h2 := <[p := OSAGA c f0]> h1).
  set (l := fresh (dom h2)).
  set (h3 := <[l := OLibrary c f0 library]> h2).
  set (t := fresh (dom h3)).
  set (h4 := <[t := OTool c f0 l tool (Parameters_init [])]> h3).
  set (h5 := <[t := OTool c f0 l tool (Parameters_init kwargs)]> h4).
  assert (H1 : h1 !! f0 = Some (OFlag (mkFlag raw))) by apply lookup_insert_eq.
  assert (Hpf : p ≠ f0) by apply (fresh_ne h1 f0 _ H1).
  assert (H2p : h2 !! p = Some (OSAGA c f0)) by apply lookup_insert_eq.
  assert (H2f : h2 !! f0 = Some (OFlag (mkFlag raw))).
  { unfold h2. by rewrite lookup_insert_ne. }
  assert (Hlp : l ≠ p) by apply (fresh_ne h2 p _ H2p).
  assert (Hlf : l ≠ f0) by apply (fresh_ne h2 f0 _ H2f).
  assert (H3l : h3 !! l = Some (OLibrary c f0 library)) by apply lookup_insert_eq.
  assert (H3p : h3 !! p = Some (OSAGA c f0)).
  { unfold h3. by rewrite lookup_insert_ne. }
  assert (H3f : h3 !! f0 = Some (OFlag (mkFlag raw))).
  { unfold h3. by rewrite lookup_insert_ne. }
  assert (Htl : t ≠ l) by apply (fresh_ne h3 l _ H3l).
  assert (Htp : t ≠ p) by apply (fresh_ne h3 p _ H3p).
  assert (Htf : t ≠ f0) by apply (fresh_ne h3 f0 _ H3f).
  assert (H4t : h4 !! t = Some (OTool c f0 l tool (Parameters_init [])))
    by apply lookup_insert_eq.
  exists (p, l, t), (mkState h5 sp). split_and!.
  - unfold descend, get_library, get_tool, SAGA_init, Library_init, Tool_init,
      resolve_saga_cmd, resolve_flag, set_params, alloc, load, store, bind,
      ret; cbn [heap spawned].
    fold f0 h1 p h2. rewrite H2p. cbn [heap spawned].
    fold l h3. rewrite H3l. cbn [heap spawned].
    fold t h4. rewrite H4t. reflexivity.
  - exists f0, f0, f0. cbn [heap fst snd]. unfold h5, h4.
    rewrite !lookup_insert_eq, !(lookup_insert_ne _ t) by done.
    rewrite H3p, H3l, H3f. split_and!; done.
  - reflexivity.
Qed.

Lemma update_flag_eq (u : flag_update) (a : loc) (σ : state) (o : obj) :
  heap σ !! a = Some o → is_level o = true →
  update_flag u a σ
  = (Ok tt,
     {| heap := <[a := with_flag o (fresh (dom (heap σ)))]>
                  (<[fresh (dom (heap σ)) := OFlag (mkFlag (new_raw u))]>
                     (heap σ));
        spawned := spawned σ |}).
Proof.
  intros Ha Hlev. pose proof (fresh_ne _ _ _ Ha) as Hne.
  destruct u; unfold update_flag, flag_set, flag_del, set__flag, alloc, load,
    store, bind; cbn [heap spawned new_raw];
    rewrite lookup_insert_ne, Ha by done; destruct o; done.
Qed.

Lemma update_flag_chain (u : flag_update) (x : level) (σ : state)
    (plt : loc * loc * loc) (c : SAGACMD) (library tool : string)
    (kwargs : dict value) (raws : level → option string) :
  chain σ plt c library tool kwargs raws →
  ∃ σ', update_flag u (pick x plt) σ = (Ok tt, σ')
        ∧ chain σ' plt c library tool kwargs (raws_after u x raws)
        ∧ spawned σ' = spawned σ.
Proof.
  destruct plt as [[p l] t].
  intros (fp & fl & ft & Hp & Hfp & Hl & Hfl & Ht & Hft & Hpl & Hlt & Hpt).
  cbn [fst snd] in *.
  set (f' := fresh (dom (heap σ))).
  assert (Hf'p : f' ≠ p) by apply (fresh_ne _ _ _ Hp).
  assert (Hf'l : f' ≠ l) by apply (fresh_ne _ _ _ Hl).
  assert (Hf't : f' ≠ t) by apply (fresh_ne _ _ _ Ht).
  assert (Hf'fp : f' ≠ fp) by apply (fresh_ne _ _ _ Hfp).
  assert (Hf'fl : f' ≠ fl) by apply (fresh_ne _ _ _ Hfl).
  assert (Hf'ft : f' ≠ ft) by apply (fresh_ne _ _ _ Hft).
  assert (Hlev : ∀ a oa fa g, heap σ !! a = Some oa → is_level oa = true →
                   heap σ !! fa = Some (OFlag g) → a ≠ fa).
  { intros a oa fa g Ha Hoa Hfa ->. rewrite Ha in Hfa.
    injection Hfa as ->. discriminate. }
  assert (Hpfp : p ≠ fp) by (eapply Hlev; [exact Hp|reflexivity|exact Hfp]).
  assert (Hpfl : p ≠ fl) by (eapply Hlev; [exact Hp|reflexivity|exact Hfl]).
  assert (Hpft : p ≠ ft) by (eapply Hlev; [exact Hp|reflexivity|exact Hft]).
  assert (Hlfp : l ≠ fp) by (eapply Hlev; [exact Hl|reflexivity|exact Hfp]).
  assert (Hlfl : l ≠ fl) by (eapply Hlev; [exact Hl|reflexivity|exact Hfl]).
  assert (Hlft : l ≠ ft) by (eapply Hlev; [exact Hl|reflexivity|exact Hft]).
  assert (Htfp : t ≠ fp) by (eapply Hlev; [exact Ht|reflexivity|exact Hfp]).
  assert (Htfl : t ≠ fl) by (eapply Hlev; [exact Ht|reflexivity|exact Hfl]).
  assert (Htft : t ≠ ft) by (eapply Hlev; [exact Ht|reflexivity|exact Hft]).
  assert (Hfresh : (<[f' := OFlag (mkFlag (new_raw u))]> (heap σ)) !! f'
                   = Some (OFlag (mkFlag (new_raw u))))
    by apply lookup_insert_eq.
  destruct x; cbn [pick fst snd].
  - eexists. split_and!; [apply (update_flag_eq u p σ _ Hp eq_refl)| |done].
    fold f'. exists f', fl, ft. cbn [heap fst snd with_flag raws_after].
    rewrite lookup_insert_eq.
    rewrite !(lookup_insert_ne _ p) by auto using not_eq_sym.
    rewrite Hfresh, !(lookup_insert_ne _ f') by auto.
    split_and!; done.
  - eexists. split_and!; [apply (update_flag_eq u l σ _ Hl eq_refl)| |done].
    fold f'. exists fp, f', ft. cbn [heap fst snd with_flag raws_after].
    rewrite lookup_insert_eq.
    rewrite !(lookup_insert_ne _ l) by auto using not_eq_sym.
    rewrite Hfresh, !(lookup_insert_ne _ f') by auto.
    split_and!; done.
  - eexists. split_and!; [apply (update_flag_eq u t σ _ Ht eq_refl)| |done].
    fold f'. exists fp, fl, f'. cbn [heap fst snd with_flag raws_after].
    rewrite lookup_insert_eq.
    rewrite !(lookup_insert_ne _ t) by auto using not_eq_sym.
    rewrite Hfresh, !(lookup_insert_ne _ f') by auto.
    split_and!; done.
Qed.

(** ** The command of an operation *)

(** X15. For an operation reached by descending from a program through a
    module whose name is not empty, with an executable path that does not
    render empty, the command is the executable path, then the flag token
    iff the flag is set, then the module name, then the operation name
    unless it is empty, then the parameter tokens in their insertion
    order; and no token of it is empty. *)
Theorem Tool_command_after_descent (E : env) (c : SAGACMD)
    (raw : option string) (library tool : string) (kwargs : dict value)
    (σ0 : state) :
  SAGACMD_str c ≠ "" → library ≠ "" →
  ∃ plt σ cmd,
    descend E c raw library tool kwargs σ0 = (Ok plt, σ)
    ∧ Tool_command plt.2 σ = (Ok cmd, σ)
    ∧ args cmd
      = [SAGACMD_str c]
          ++ match raw with
             | None => []
             | Some s => [Flag_str (mkFlag (Some s))]
             end
          ++ [library]
          ++ (if String.eqb tool "" then [] else [tool])
          ++ Parameters_iter (Parameters_init kwargs)
    ∧ (tool ≠ "" →
       args cmd
       = [SAGACMD_str c] ++ flag_tokens raw ++ [library; tool]
           ++ Parameters_iter (Parameters_init kwargs))
    ∧ Forall (λ tok, tok ≠ "") (args cmd).
Proof.
  intros Hpath Hlib.
  destruct (descend_chain E c raw library tool kwargs σ0)
    as (plt & σ & Hd & Hc & _).
  exists plt, σ, {| args := expected_args Operation c raw library tool kwargs |}.
  pose proof (chain_command Operation _ _ _ _ _ _ _ Hc) as Hcmd.
  pose proof (level_command_eq plt.2 σ) as Heq.
  destruct Hc as (fp & fl & ft & _ & _ & _ & _ & Ht & _).
  rewrite Ht in Heq. cbn [pick] in Hcmd. rewrite Heq.
  split_and!; [done|exact Hcmd| | |].
  - cbn [args expected_args]. unfold flag_tokens, name_tokens.
    by destruct raw.
  - intros Htool. cbn [args expected_args]. unfold name_tokens.
    by rewrite (eqb_empty_false tool Htool).
  - cbn [args expected_args]. rewrite !Forall_app. split_and!.
    + by apply Forall_singleton.
    + destruct raw as [s|]; [|done].
      apply Forall_singleton, Flag_str_set_nonempty.
    + by apply Forall_singleton.
    + unfold name_tokens. destruct (String.eqb_spec tool ""); [done|].
      by apply Forall_singleton.
    + apply Parameters_tokens_nonempty.
Qed.

(** ** Flags of the levels of a descent *)

Lemma apply_updates_chain (us : list (level * flag_update)) (σ : state)
    (plt : loc * loc * loc) (c : SAGACMD) (library tool : string)
    (kwargs : dict value) (raws : level → option string) :
  chain σ plt c library tool kwargs raws →
  ∃ σ', apply_updates us plt σ = (Ok tt, σ')
        ∧ chain σ' plt c library tool kwargs (raws_after_all us raws)
        ∧ spawned σ' = spawned σ.
Proof.
  revert σ raws. induction us as [|[x u] us IH]; intros σ raws Hc.
  - by exists σ.
  - destruct (update_flag_chain u x σ plt c library tool kwargs raws Hc)
      as (σ1 & Hu & Hc1 & Hsp1).
    destruct (IH σ1 _ Hc1) as (σ' & Hus & Hc' & Hsp').
    exists σ'. split_and!; [|exact Hc'|congruence].
    cbn [apply_updates fst snd]. unfold bind. by rewrite Hu.
Qed.

Lemma raws_after_all_other (us : list (level * flag_update))
    (raws : level → option string) (y : level) :
  (∀ xu, xu ∈ us → xu.1 ≠ y) → raws_after_all us raws y = raws y.
Proof.
  revert raws. induction us as [|[x u] us IH]; intros raws Hy; [done|].
  cbn [raws_after_all fst snd]. rewrite IH.
  - assert (x ≠ y) by apply (Hy (x, u)), list_elem_of_here.
    unfold raws_after. by destruct x, y.
  - intros xu Hxu. apply Hy. by apply list_elem_of_further.
Qed.

Lemma raws_after_all_last (us : list (level * flag_update))
    (raws : level → option string) (x : level) (u : flag_update) :
  raws_after_all (us ++ [(x, u)]) raws x = new_raw u.
Proof.
  revert raws. induction us as [|[x' u'] us IH]; intros raws.
  - cbn. by destruct x.
  - cbn [app raws_after_all fst snd]. apply IH.
Qed.

(** C7. After a descent from a program to a module to an operation, any
    sequence of settings, replacements and clearings of the flag of the
    other instances leaves the command of an instance exactly as it was;
    after the updates every instance produces the command of its own latest
    flag, so an update does take effect on the instance it is applied to. *)
Theorem flag_update_independent (E : env) (c : SAGACMD) (raw : option string)
    (library tool : string) (kwargs : dict value) (σ0 : state)
    (us : list (level * flag_update)) (y : level) :
  (∀ xu, xu ∈ us → xu.1 ≠ y) →
  ∃ plt σ σ' cmd,
    descend E c raw library tool kwargs σ0 = (Ok plt, σ)
    ∧ command (pick y plt) σ = (Ok cmd, σ)
    ∧ apply_updates us plt σ = (Ok tt, σ')
    ∧ command (pick y plt) σ' = (Ok cmd, σ')
    ∧ ∀ x u, ∃ σ'' cmd',
        apply_updates (us ++ [(x, u)]) plt σ = (Ok tt, σ'')
        ∧ command (pick x plt) σ'' = (Ok cmd', σ'')
        ∧ args cmd' = expected_args x c (new_raw u) library tool kwargs.
Proof.
  intros Hy.
  destruct (descend_chain E c raw library tool kwargs σ0)
    as (plt & σ & Hd & Hc & _).
  destruct (apply_updates_chain us σ plt c library tool kwargs _ Hc)
    as (σ' & Hus & Hc' & _).
  exists plt, σ, σ', {| args := expected_args y c raw library tool kwargs |}.
  split_and!; [exact Hd| |exact Hus| |].
  - apply (chain_command y _ _ _ _ _ _ _ Hc).
  - rewrite (chain_command y _ _ _ _ _ _ _ Hc').
    by rewrite (raws_after_all_other us _ y Hy).
  - intros x u.
    destruct (apply_updates_chain (us ++ [(x, u)]) σ plt c library tool kwargs
                _ Hc) as (σ'' & Hus' & Hc'' & _).
    exists σ'', {| args := expected_args x c (new_raw u) library tool kwargs |}.
    split_and!; [exact Hus'| |done].
    rewrite (chain_command x _ _ _ _ _ _ _ Hc'').
    by rewrite raws_after_all_last.
Qed.

(** C8. Whatever flag a level of a descent started with, setting its flag
    to any value and then clearing it leaves the level with the command it
    has in a descent whose flag was never set; for a level whose flag was
    not set before, that is the command it had before. *)
Theorem flag_set_then_clear (E : env) (c : SAGACMD) (raw : option string)
    (library tool : string) (kwargs : dict value) (σ0 : state)
    (x : level) (v : option string) :
  ∃ plt σ σ1 σ2 cmd,
    descend E c raw library tool kwargs σ0 = (Ok plt, σ)
    ∧ flag_set (pick x plt) v σ = (Ok tt, σ1)
    ∧ flag_del (pick x plt) σ1 = (Ok tt, σ2)
    ∧ command (pick x plt) σ2 = (Ok cmd, σ2)
    ∧ (∃ plt0 τ, descend E c None library tool kwargs σ0 = (Ok plt0, τ)
                 ∧ command (pick x plt0) τ = (Ok cmd, τ))
    ∧ (raw = None → command (pick x plt) σ = (Ok cmd, σ))
    ∧ args cmd = expected_args x c None library tool kwargs.
Proof.
  destruct (descend_chain E c raw library tool kwargs σ0)
    as (plt & σ & Hd & Hc & _).
  destruct (update_flag_chain (SetFlag v) x σ plt c library tool kwargs _ Hc)
    as (σ1 & Hu1 & Hc1 & _).
  destruct (update_flag_chain ClearFlag x σ1 plt c library tool kwargs _ Hc1)
    as (σ2 & Hu2 & Hc2 & _).
  destruct (descend_chain E c None library tool kwargs σ0)
    as (plt0 & τ & Hd0 & Hc0 & _).
  exists plt, σ, σ1, σ2, {| args := expected_args x c None library tool kwargs |}.
  split_and!; [exact Hd|exact Hu1|exact Hu2| | | |done].
  - rewrite (chain_command x _ _ _ _ _ _ _ Hc2). by destruct x.
  - exists plt0, τ. split; [exact Hd0|].
    apply (chain_command x _ _ _ _ _ _ _ Hc0).
  - intros ->. apply (chain_command x _ _ _ _ _ _ _ Hc).
Qed.

(** ** Execution *)

Lemma Command_execute_eq (E : env) (self : Command) (σ : state) :
  Command_execute E self σ
  = match child E (args self) with
    | Exits rc out err =>
        (Ok (mkCompletedProcess (args self) rc out err),
         {| heap := heap σ; spawned := args self :: spawned σ |})
    | SpawnFails e => (Raise (SpawnError e), σ)
    | ExitsUndecodable rc =>
        (Raise UnicodeDecodeError,
         {| heap := heap σ; spawned := args self :: spawned σ |})
    end.
Proof.
  unfold Command_execute, subprocess_run.
  destruct (child E (args self)); reflexivity.
Qed.

Lemma set_params_chain (σ : state) (plt : loc * loc * loc) (c : SAGACMD)
    (library tool : string) (kwargs kw : dict value)
    (raws : level → option string) :
  chain σ plt c library tool kwargs raws →
  ∃ ft σ1,
    set_params plt.2 kw σ = (Ok tt, σ1)
    ∧ heap σ !! plt.2 = Some (OTool c ft plt.1.2 tool (Parameters_init kwargs))
    ∧ σ1 = {| heap := <[plt.2 := OTool c ft plt.1.2 tool (Parameters_init kw)]>
                        (heap σ);
              spawned := spawned σ |}
    ∧ chain σ1 plt c library tool kw raws.
Proof.
  intros (fp & fl & ft & Hp & Hfp & Hl & Hfl & Ht & Hft & Hpl & Hlt & Hpt).
  assert (Htf : ∀ fa g, heap σ !! fa = Some (OFlag g) → plt.2 ≠ fa).
  { intros fa g Hfa Heq. rewrite <- Heq, Ht in Hfa. discriminate. }
  exists ft. eexists. split_and!; [|exact Ht|reflexivity|].
  - unfold set_params, bind, load, store. by rewrite Ht.
  - exists fp, fl, ft. cbn [heap].
    rewrite lookup_insert_eq.
    rewrite !(lookup_insert_ne _ plt.2) by eauto using not_eq_sym.
    split_and!; done.
Qed.

Lemma run_command_eq (E : env) (σ : state) (plt : loc * loc * loc)
    (c : SAGACMD) (library tool : string) (kwargs : dict value)
    (raws : level → option string) :
  chain σ plt c library tool kwargs raws →
  SAGA_run_command E plt.1.1 σ
  = executed E (expected_args Program c (raws Program) library tool kwargs)
             (Parameters_init []) σ
  ∧ Library_run_command E plt.1.2 σ
    = executed E (expected_args Module_ c (raws Module_) library tool kwargs)
               (Parameters_init []) σ
  ∧ Tool_run_command E plt.2 [] σ
    = executed E (expected_args Operation c (raws Operation) library tool kwargs)
               (Parameters_init kwargs) σ.
Proof.
  intros Hc.
  pose proof (chain_command Program _ _ _ _ _ _ _ Hc) as Hp.
  pose proof (chain_command Module_ _ _ _ _ _ _ _ Hc) as Hl.
  pose proof (chain_command Operation _ _ _ _ _ _ _ Hc) as Ht.
  pose proof (level_command_eq plt.1.1 σ) as Hep.
  pose proof (level_command_eq plt.1.2 σ) as Hel.
  pose proof (level_command_eq plt.2 σ) as Het.
  destruct Hc as (fp & fl & ft & Hhp & Hfp & Hhl & Hfl & Hht & Hft & Hne).
  rewrite Hhp in Hep. rewrite Hhl in Hel. rewrite Hht in Het.
  cbn [pick] in Hp, Hl, Ht.
  unfold SAGA_run_command, Library_run_command, Tool_run_command, executed.
  split_and!.
  - unfold bind at 1. rewrite Hep, Hp. unfold bind.
    rewrite Command_execute_eq. cbn [args].
    by destruct (child E _).
  - unfold bind at 1. rewrite Hel, Hl. unfold bind.
    rewrite Command_execute_eq. cbn [args].
    by destruct (child E _).
  - unfold bind at 1. unfold ret at 1. unfold bind at 1. rewrite Het, Ht.
    unfold bind. rewrite Command_execute_eq. cbn [args].
    destruct (child E _); [done| |done].
    unfold get_parameters, bind, load; cbn [heap]. by rewrite Hht.
Qed.

Lemma Tool_run_command_eq (E : env) (σ : state) (plt : loc * loc * loc)
    (c : SAGACMD) (library tool : string) (kwargs : dict value)
    (raws : level → option string) (kv : string * value) (kw : dict value) :
  chain σ plt c library tool kwargs raws →
  ∃ ft,
    heap σ !! plt.2 = Some (OTool c ft plt.1.2 tool (Parameters_init kwargs))
    ∧ Tool_run_command E plt.2 (kv :: kw) σ
      = executed E
          (expected_args Operation c (raws Operation) library tool (kv :: kw))
          (Parameters_init (kv :: kw))
          {| heap := <[plt.2 := OTool c ft plt.1.2 tool
                                  (Parameters_init (kv :: kw))]> (heap σ);
             spawned := spawned σ |}.
Proof.
  intros Hc.
  destruct (set_params_chain σ plt c library tool kwargs (kv :: kw) raws Hc)
    as (ft & σ1 & Hset & Ht & -> & Hc1).
  exists ft. split; [exact Ht|].
  destruct (run_command_eq E _ plt c library tool (kv :: kw) raws Hc1)
    as (_ & _ & <-).
  unfold Tool_run_command. unfold bind at 1. rewrite Hset.
  unfold bind at 6. reflexivity.
Qed.

(** C5, as the claim states it, fails: a child that is spawned, runs and
    exits with status 0 but writes bytes that are not text makes [execute]
    raise an error that is not a failure to spawn. *)
Lemma Command_execute_decode_counterexample :
  ¬ (∀ e, (Command_execute undecodable_env {| args := ["saga_cmd"] |}
                           (mkState ∅ [])).1 = Raise e →
          ∃ f, e = SpawnError f).
Proof.
  intros H. destruct (H UnicodeDecodeError eq_refl) as [f Hf]. discriminate Hf.
Qed.

(** C5, amended. Executing a command returns the process result with the
    exit status and the captured output and error text of the child as
    they are, whatever the exit status, and never raises because of the
    exit status. It raises in two cases only: the child could not be
    spawned, and nothing is recorded as run; or the child ran and what it
    wrote could not be decoded as text. Both reach the caller of
    [execute] and, for a level of a descent, the caller of
    [run_command]. *)
Theorem Command_execute_spec (E : env) (self : Command) (σ : state) :
  (∀ rc out err, child E (args self) = Exits rc out err →
     Command_execute E self σ
     = (Ok (mkCompletedProcess (args self) rc out err),
        {| heap := heap σ; spawned := args self :: spawned σ |}))
  ∧ (∀ f, child E (args self) = SpawnFails f →
       Command_execute E self σ = (Raise (SpawnError f), σ))
  ∧ (∀ rc, child E (args self) = ExitsUndecodable rc →
       Command_execute E self σ
       = (Raise UnicodeDecodeError,
          {| heap := heap σ; spawned := args self :: spawned σ |}))
  ∧ (∀ e, (Command_execute E self σ).1 = Raise e →
       (∃ f, e = SpawnError f ∧ child E (args self) = SpawnFails f)
       ∨ (e = UnicodeDecodeError
          ∧ ∃ rc, child E (args self) = ExitsUndecodable rc))
  ∧ (∀ plt c library tool kwargs raws kw e,
       chain σ plt c library tool kwargs raws →
       (SAGA_run_command E plt.1.1 σ).1 = Raise e
       ∨ (Library_run_command E plt.1.2 σ).1 = Raise e
       ∨ (Tool_run_command E plt.2 kw σ).1 = Raise e →
       (∃ f, e = SpawnError f) ∨ e = UnicodeDecodeError).
Proof.
  assert (Hex : ∀ argv ps τ e, (executed E argv ps τ).1 = Raise e →
                  (∃ f, e = SpawnError f) ∨ e = UnicodeDecodeError).
  { intros argv ps τ e. unfold executed.
    destruct (child E argv) as [f|rc out err|rc]; cbn [fst].
    - intros [= <-]. left. by exists f.
    - discriminate.
    - intros [= <-]. by right. }
  split_and!.
  - intros rc out err Hch. by rewrite Command_execute_eq, Hch.
  - intros f Hch. by rewrite Command_execute_eq, Hch.
  - intros rc Hch. by rewrite Command_execute_eq, Hch.
  - intros e. rewrite Command_execute_eq.
    destruct (child E (args self)) as [f|rc out err|rc] eqn:Hch; cbn [fst].
    + intros [= <-]. left. by exists f.
    + discriminate.
    + intros [= <-]. right. split; [done|]. by exists rc.
  - intros plt c library tool kwargs raws kw e Hc Hraise.
    destruct (run_command_eq E σ plt c library tool kwargs raws Hc)
      as (Hp & Hl & Ht).
    destruct Hraise as [Hr|[Hr|Hr]].
    + rewrite Hp in Hr. by eapply Hex.
    + rewrite Hl in Hr. by eapply Hex.
    + destruct kw as [|kv kw].
      * rewrite Ht in Hr. by eapply Hex.
      * destruct (Tool_run_command_eq E σ plt c library tool kwargs raws kv kw Hc)
          as (ft & _ & Heq).
        rewrite Heq in Hr. by eapply Hex.
Qed.

Example Command_execute_nonzero_exit :
  Command_execute example_env {| args := ["saga_cmd"; "--help"] |}
                  (mkState ∅ [])
  = (Ok (mkCompletedProcess ["saga_cmd"; "--help"] 1 "usage" ""),
     mkState ∅ [["saga_cmd"; "--help"]]).
Proof. reflexivity. Qed.

Lemma executed_heap (E : env) (argv : list string) (ps : Parameters)
    (τ : state) :
  heap (executed E argv ps τ).2 = heap τ.
Proof. unfold executed. by destruct (child E argv). Qed.

Lemma executed_output (E : env) (argv : list string) (ps : Parameters)
    (τ : state) (out : Output) :
  (executed E argv ps τ).1 = Ok out →
  parameters out = ps ∧ cp_args (completed_process out) = argv
  ∧ (executed E argv ps τ).2
    = {| heap := heap τ; spawned := argv :: spawned τ |}.
Proof.
  unfold executed. destruct (child E argv); cbn [fst snd]; [done| |done].
  by intros [= <-].
Qed.

(** C10. [Tool.run_command] called with no named value leaves the heap,
    and with it the stored parameters of the operation, as they were, runs
    the command built from those parameters and returns an output holding
    them; called with at least one named value it first replaces the
    stored parameters by the ones built from the named values, and runs
    and returns with those. *)
Theorem Tool_run_command_parameters (E : env) (σ : state)
    (plt : loc * loc * loc) (c : SAGACMD) (library tool : string)
    (kwargs : dict value) (raws : level → option string) :
  chain σ plt c library tool kwargs raws →
  let argv := expected_args Operation c (raws Operation) library tool in
  let r := Tool_run_command E plt.2 [] σ in
  get_parameters plt.2 σ = (Ok (Parameters_init kwargs), σ)
  ∧ r = executed E (argv kwargs) (Parameters_init kwargs) σ
  ∧ heap r.2 = heap σ
  ∧ get_parameters plt.2 r.2 = (Ok (Parameters_init kwargs), r.2)
  ∧ (∀ out, r.1 = Ok out →
       parameters out = Parameters_init kwargs
       ∧ cp_args (completed_process out) = argv kwargs
       ∧ spawned r.2 = argv kwargs :: spawned σ)
  ∧ ∀ kv kw,
      let r' := Tool_run_command E plt.2 (kv :: kw) σ in
      get_parameters plt.2 r'.2 = (Ok (Parameters_init (kv :: kw)), r'.2)
      ∧ (∀ out, r'.1 = Ok out →
           parameters out = Parameters_init (kv :: kw)
           ∧ cp_args (completed_process out) = argv (kv :: kw)
           ∧ spawned r'.2 = argv (kv :: kw) :: spawned σ).
Proof.
  intros Hc argv r.
  destruct (run_command_eq E σ plt c library tool kwargs raws Hc)
    as (_ & _ & Hr).
  fold r in Hr. fold (argv kwargs) in Hr.
  assert (Hget : ∀ τ ft kw,
            heap τ !! plt.2 = Some (OTool c ft plt.1.2 tool (Parameters_init kw)) →
            get_parameters plt.2 τ = (Ok (Parameters_init kw), τ)).
  { intros τ ft kw Hτ. unfold get_parameters, bind, load. by rewrite Hτ. }
  pose proof Hc as (fp & fl & ft & _ & _ & _ & _ & Ht & _).
  split_and!.
  - by apply (Hget σ ft).
  - exact Hr.
  - rewrite Hr. apply executed_heap.
  - apply (Hget _ ft). rewrite Hr, executed_heap. exact Ht.
  - intros out Hout. rewrite Hr in Hout |- *.
    destruct (executed_output _ _ _ _ _ Hout) as (Hps & Hargs & ->). done.
  - intros kv kw r'.
    destruct (Tool_run_command_eq E σ plt c library tool kwargs raws kv kw Hc)
      as (ft' & Ht' & Hr').
    fold r' in Hr'. fold (argv (kv :: kw)) in Hr'.
    split.
    + apply (Hget _ ft'). rewrite Hr', executed_heap. cbn [heap].
      apply lookup_insert_eq.
    + intros out Hout. rewrite Hr' in Hout |- *.
      destruct (executed_output _ _ _ _ _ Hout) as (Hps & Hargs & ->). done.
Qed.

(** ** Construction of the executable path handle *)

(** C6. Constructing the path handle checks that the path exists, then that
    it is not a directory, then that it can be executed; the first check
    that fails raises its own error kind and nothing is constructed, the
    state (the heap and the list of spawned processes) is as it was, and a
    level that was being constructed from the path is not allocated. A
    directory fails as a directory, a missing path as not found. *)
Theorem SAGACMD_init_validation (E : env) (saga_cmd_path : option Path)
    (σ : state) :
  let p := match saga_cmd_path with
           | None => get_sagacmd_default E
           | Some p => p
           end in
  SAGACMD_init E saga_cmd_path σ
  = (if negb (path_exists E p) then Raise PathDoesNotExist
     else if path_is_dir E p then Raise IsADirectoryError
     else if negb (path_is_executable E p) then Raise NotExecutable
     else Ok (mkSAGACMD p), σ)
  ∧ (path_exists E p = false →
     SAGACMD_init E saga_cmd_path σ = (Raise PathDoesNotExist, σ))
  ∧ (path_exists E p = true → path_is_dir E p = true →
     SAGACMD_init E saga_cmd_path σ = (Raise IsADirectoryError, σ))
  ∧ (path_exists E p = true → path_is_dir E p = false →
     path_is_executable E p = false →
     SAGACMD_init E saga_cmd_path σ = (Raise NotExecutable, σ))
  ∧ PathDoesNotExist ≠ IsADirectoryError
  ∧ IsADirectoryError ≠ NotExecutable
  ∧ PathDoesNotExist ≠ NotExecutable
  ∧ (∀ e flag library lib tool,
       (SAGACMD_init E saga_cmd_path σ).1 = Raise e →
       SAGA_init E (inl saga_cmd_path) flag σ = (Raise e, σ)
       ∧ Library_init E library (inl saga_cmd_path) flag σ = (Raise e, σ)
       ∧ Tool_init E lib tool (inl saga_cmd_path) flag σ = (Raise e, σ)).
Proof.
  intros p.
  assert (Heq : SAGACMD_init E saga_cmd_path σ
    = (if negb (path_exists E p) then Raise PathDoesNotExist
       else if path_is_dir E p then Raise IsADirectoryError
       else if negb (path_is_executable E p) then Raise NotExecutable
       else Ok (mkSAGACMD p), σ)).
  { unfold SAGACMD_init, check_is_file, check_is_executable, bind, raise, ret.
    fold p.
    destruct (path_exists E p), (path_is_dir E p), (path_is_executable E p);
      reflexivity. }
  split_and!; try done.
  - intros He. by rewrite Heq, He.
  - intros He Hd. by rewrite Heq, He, Hd.
  - intros He Hd Hx. by rewrite Heq, He, Hd, Hx.
  - intros e fl library lib tool Hraise.
    unfold SAGA_init, Library_init, Tool_init, resolve_saga_cmd.
    unfold bind at 1 3 5.
    rewrite Heq in Hraise |- *. cbn [fst] in Hraise. by rewrite Hraise.
Qed.

(** ** Descent, from any state *)

Lemma get_library_eq (E : env) (σ : state) (p : loc) (c : SAGACMD) (fp : loc)
    (library : string) :
  heap σ !! p = Some (OSAGA c fp) →
  get_library E p library σ
  = (Ok (fresh (dom (heap σ))),
     {| heap := <[fresh (dom (heap σ)) := OLibrary c fp library]> (heap σ);
        spawned := spawned σ |}).
Proof.
  intros Hp. unfold get_library, bind, load. rewrite Hp. reflexivity.
Qed.

Lemma get_tool_eq (E : env) (σ : state) (l : loc) (c : SAGACMD) (fl : loc)
    (library tool : string) :
  heap σ !! l = Some (OLibrary c fl library) →
  get_tool E l tool σ
  = (Ok (fresh (dom (heap σ))),
     {| heap := <[fresh (dom (heap σ))
                  := OTool c fl l tool (Parameters_init [])]> (heap σ);
        spawned := spawned σ |}).
Proof.
  intros Hl. unfold get_tool, bind, load. rewrite Hl. reflexivity.
Qed.

(** X1. [SAGA.get_library], on a program in any state and on any host,
    returns a new module that starts with the flag the program holds at
    that moment: it consults neither the file system nor the processes,
    leaves every existing object as it is, and the command of the new
    module is the executable path, the flag token of the current flag and
    the module name unless it is empty. *)
Theorem get_library_inherits (E : env) (σ : state) (p : loc) (c : SAGACMD)
    (fp : loc) (f : Flag) (library : string) :
  heap σ !! p = Some (OSAGA c fp) →
  heap σ !! fp = Some (OFlag f) →
  ∃ l σ',
    get_library E p library σ = (Ok l, σ')
    ∧ heap σ !! l = None
    ∧ heap σ' = <[l := OLibrary c fp library]> (heap σ)
    ∧ spawned σ' = spawned σ
    ∧ command l σ'
      = (Ok {| args := [SAGACMD_str c] ++ flag_tokens (flag f)
                         ++ name_tokens library |}, σ')
    ∧ command p σ'
      = (Ok {| args := [SAGACMD_str c] ++ flag_tokens (flag f) |}, σ')
    ∧ command p σ
      = (Ok {| args := [SAGACMD_str c] ++ flag_tokens (flag f) |}, σ).
Proof.
  intros Hp Hfp.
  pose proof (fresh_ne _ _ _ Hp) as Hlp.
  pose proof (fresh_ne _ _ _ Hfp) as Hlf.
  eexists _, _. split; [apply (get_library_eq E σ p c fp library Hp)|].
  split_and!; try reflexivity.
  - apply fresh_lookup.
  - rewrite command_eq. unfold command_of. cbn [heap].
    rewrite lookup_insert_eq. cbn beta iota.
    rewrite lookup_insert_ne, Hfp by done.
    do 2 f_equal. exact (Command_init_args Module_ c f library "" []).
  - rewrite command_eq. unfold command_of. cbn [heap].
    rewrite lookup_insert_ne, Hp by done. cbn beta iota.
    rewrite lookup_insert_ne, Hfp by done.
    do 2 f_equal. exact (Command_init_args Program c f library "" []).
  - rewrite command_eq. unfold command_of. rewrite Hp, Hfp.
    do 2 f_equal. exact (Command_init_args Program c f library "" []).
Qed.

(** X2. [Library.get_tool], on a module in any state and on any host,
    returns a new operation that refers to the module, starts with the flag
    the module holds at that moment and with no parameters: nothing is
    validated or spawned, existing objects stay as they are, and the
    command of the new operation is the executable path, the flag token,
    the module name and the operation name unless it is empty. *)
Theorem get_tool_inherits (E : env) (σ : state) (l : loc) (c : SAGACMD)
    (fl : loc) (f : Flag) (library tool : string) :
  heap σ !! l = Some (OLibrary c fl library) →
  heap σ !! fl = Some (OFlag f) →
  ∃ t σ',
    get_tool E l tool σ = (Ok t, σ')
    ∧ heap σ !! t = None
    ∧ heap σ' = <[t := OTool c fl l tool (Parameters_init [])]> (heap σ)
    ∧ spawned σ' = spawned σ
    ∧ get_parameters t σ' = (Ok (Parameters_init []), σ')
    ∧ Tool_str t σ' = (Ok tool, σ')
    ∧ command t σ'
      = (Ok {| args := [SAGACMD_str c] ++ flag_tokens (flag f) ++ [library]
                         ++ name_tokens tool |}, σ')
    ∧ command l σ' = ((command l σ).1, σ').
Proof.
  intros Hl Hfl.
  pose proof (fresh_ne _ _ _ Hl) as Htl.
  pose proof (fresh_ne _ _ _ Hfl) as Htf.
  eexists _, _. split; [apply (get_tool_eq E σ l c fl library tool Hl)|].
  split_and!; try reflexivity.
  - apply fresh_lookup.
  - unfold get_parameters, bind, load. cbn [heap].
    by rewrite lookup_insert_eq.
  - unfold Tool_str, bind, load. cbn [heap]. by rewrite lookup_insert_eq.
  - rewrite command_eq. unfold command_of. cbn [heap].
    rewrite lookup_insert_eq. cbn beta iota.
    rewrite !lookup_insert_ne, Hfl, Hl by done.
    do 2 f_equal.
    rewrite (Command_init_args Operation c f library tool []).
    cbn [expected_args Parameters_iter Parameters_init _params dict_comp
         fold_left map]. by rewrite app_nil_r.
  - rewrite !command_eq. unfold command_of. cbn [heap fst].
    rewrite lookup_insert_ne, Hl by done. cbn beta iota.
    by rewrite lookup_insert_ne, Hfl by done.
Qed.

Lemma bind_ext {A B} (m : M A) (k k' : A → M B) (σ : state) :
  (∀ a σ', m σ = (Ok a, σ') → k a σ' = k' a σ') →
  bind m k σ = bind m k' σ.
Proof.
  intros H. unfold bind. destruct (m σ) as [[a|e] σ']; [by apply H|done].
Qed.

(** X3. [SAGA.get_tool] is the two-step descent: in every state, whatever
    the object it is called on, it returns the same operation and leaves
    the same state as [get_library] followed by [get_tool] on the module
    obtained, and as the two [/] operators applied to the two names. *)
Theorem SAGA_get_tool_two_steps (E : env) (σ : state) (p : loc)
    (library tool : string) :
  SAGA_get_tool E p library tool σ
  = (l <- get_library E p library ;; get_tool E l tool) σ
  ∧ SAGA_get_tool E p library tool σ
    = (l <- SAGA_truediv E p (inl library) ;;
       Library_truediv E l (inl tool)) σ.
Proof.
  assert (H : SAGA_get_tool E p library tool σ
              = (l <- get_library E p library ;; get_tool E l tool) σ).
  { unfold SAGA_get_tool. apply bind_ext. intros l σ' Hg.
    destruct (heap σ !! p) as [[f|c fp|c fl name|c ft lib tl ps]|] eqn:Hp;
      try (unfold get_library, bind, load in Hg; rewrite Hp in Hg;
           discriminate).
    rewrite (get_library_eq E σ p c fp library Hp) in Hg.
    injection Hg as <- <-.
    pose proof (fresh_ne _ _ _ Hp) as Hne.
    unfold get_tool, bind, load. cbn [heap].
    rewrite lookup_insert_ne, Hp, lookup_insert_eq by done.
    reflexivity. }
  split; [exact H|]. exact H.
Qed.

(** ** Commands of the program and of the module *)

(** X4. The commands of a program and of a module never hold an empty
    token, whatever their names and flags, as long as the executable path
    does not render empty: the program gives the path and the flag token
    iff its flag is set, the module adds its name unless the name is empty,
    in which case the name contributes no token. *)
Theorem program_module_tokens (σ : state) (plt : loc * loc * loc)
    (c : SAGACMD) (library tool : string) (kwargs : dict value)
    (raws : level → option string) :
  chain σ plt c library tool kwargs raws →
  SAGACMD_str c ≠ "" →
  ∃ cp cl,
    SAGA_command plt.1.1 σ = (Ok cp, σ)
    ∧ Library_command plt.1.2 σ = (Ok cl, σ)
    ∧ args cp = [SAGACMD_str c] ++ flag_tokens (raws Program)
    ∧ args cl = [SAGACMD_str c] ++ flag_tokens (raws Module_)
                  ++ (if String.eqb library "" then [] else [library])
    ∧ Forall (λ tok, tok ≠ "") (args cp)
    ∧ Forall (λ tok, tok ≠ "") (args cl).
Proof.
  intros Hc Hpath.
  pose proof (chain_command Program _ _ _ _ _ _ _ Hc) as Hp.
  pose proof (chain_command Module_ _ _ _ _ _ _ _ Hc) as Hl.
  pose proof (level_command_eq plt.1.1 σ) as Hep.
  pose proof (level_command_eq plt.1.2 σ) as Hel.
  destruct Hc as (fp & fl & ft & Hhp & _ & Hhl & _).
  rewrite Hhp in Hep. rewrite Hhl in Hel. cbn [pick] in Hp, Hl.
  assert (Hflag : ∀ raw, Forall (λ tok, tok ≠ "") (flag_tokens raw)).
  { intros [s|]; [|done]. apply Forall_singleton, Flag_str_set_nonempty. }
  eexists _, _. rewrite Hep, Hel.
  split_and!; [exact Hp|exact Hl|reflexivity|reflexivity| |];
    cbn [args expected_args]; rewrite !Forall_app; split_and!;
    try apply Hflag; try by apply Forall_singleton.
  unfold name_tokens. destruct (String.eqb_spec library ""); [done|].
  by apply Forall_singleton.
Qed.

(** X5. Along a descent each command extends the one above it: the command
    of the module starts with the whole command of the program, and the
    command of the operation starts with the whole command of the module,
    for every name, flag and parameter mapping. *)
Theorem descent_commands_extend (E : env) (c : SAGACMD) (raw : option string)
    (library tool : string) (kwargs : dict value) (σ0 : state) :
  ∃ plt σ cp cl ct,
    descend E c raw library tool kwargs σ0 = (Ok plt, σ)
    ∧ SAGA_command plt.1.1 σ = (Ok cp, σ)
    ∧ Library_command plt.1.2 σ = (Ok cl, σ)
    ∧ Tool_command plt.2 σ = (Ok ct, σ)
    ∧ (∃ more, args cl = args cp ++ more)
    ∧ (∃ more, args ct = args cl ++ more)
    ∧ (length (args cp) ≤ length (args cl) ≤ length (args ct))%nat.
Proof.
  destruct (descend_chain E c raw library tool kwargs σ0)
    as (plt & σ & Hd & Hc & _).
  pose proof (chain_command Program _ _ _ _ _ _ _ Hc) as Hp.
  pose proof (chain_command Module_ _ _ _ _ _ _ _ Hc) as Hl.
  pose proof (chain_command Operation _ _ _ _ _ _ _ Hc) as Ht.
  pose proof (level_command_eq plt.1.1 σ) as Hep.
  pose proof (level_command_eq plt.1.2 σ) as Hel.
  pose proof (level_command_eq plt.2 σ) as Het.
  destruct Hc as (fp & fl & ft & Hhp & _ & Hhl & _ & Hht & _).
  rewrite Hhp in Hep. rewrite Hhl in Hel. rewrite Hht in Het.
  cbn [pick] in Hp, Hl, Ht.
  exists plt, σ. eexists _, _, _. rewrite Hep, Hel, Het.
  split_and!; [exact Hd|exact Hp|exact Hl|exact Ht| | | |];
    cbn [args expected_args].
  - by exists (name_tokens library).
  - exists (List.filter (λ tok, String.eqb tok "") [library]
            ++ name_tokens tool ++ Parameters_iter (Parameters_init kwargs)).
    unfold name_tokens. cbn [List.filter].
    destruct (String.eqb library "") eqn:Hlib.
    + apply String.eqb_eq in Hlib as ->. cbn. by rewrite app_nil_r.
    + cbn. by rewrite <- app_assoc.
  - rewrite !length_app. lia.
  - unfold name_tokens. rewrite !length_app.
    destruct (String.eqb library ""); cbn [length]; lia.
Qed.

(** ** Indexing and rendering a command *)

Lemma Command_getitem_head (path : string) (rest : list string) :
  let cmd := {| args := path :: rest |} in
  let n := Z.of_nat (length (args cmd)) in
  Command_getitem cmd 0 = Some path
  ∧ Command_getitem cmd (- n) = Some path
  ∧ Command_getitem cmd n = None
  ∧ Command_getitem cmd (- n - 1) = None.
Proof.
  intros cmd n. unfold Command_getitem. fold n.
  assert (Hn : (n = Z.of_nat (S (length rest)))) by reflexivity.
  assert (0 < n)%Z by lia.
  split_and!.
  - reflexivity.
  - destruct (- n <? 0)%Z eqn:H1; [|lia].
    replace (- n + n)%Z with 0%Z by lia. reflexivity.
  - destruct (n <? 0)%Z eqn:H1; [lia|]. rewrite H1.
    apply lookup_ge_None_2. cbn [args cmd length]. lia.
  - destruct (- n - 1 <? 0)%Z eqn:H1; [|lia].
    destruct (- n - 1 + n <? 0)%Z eqn:H2; [done|lia].
Qed.

(** X6. At every level of a descent, whatever the flags, index [0] of the
    command is the executable path, so a command is never empty; the index
    [-len] is the path as well, and the indices [len] and [-len - 1] are
    out of range. *)
Theorem command_first_token (σ : state) (plt : loc * loc * loc)
    (c : SAGACMD) (library tool : string) (kwargs : dict value)
    (raws : level → option string) (x : level) :
  chain σ plt c library tool kwargs raws →
  ∃ cmd,
    command (pick x plt) σ = (Ok cmd, σ)
    ∧ (1 ≤ length (Command_iter cmd))%nat
    ∧ Command_getitem cmd 0 = Some (SAGACMD_str c)
    ∧ Command_getitem cmd (- Z.of_nat (length (args cmd)))
      = Some (SAGACMD_str c)
    ∧ Command_getitem cmd (Z.of_nat (length (args cmd))) = None
    ∧ Command_getitem cmd (- Z.of_nat (length (args cmd)) - 1) = None.
Proof.
  intros Hc. eexists. split; [apply (chain_command x _ _ _ _ _ _ _ Hc)|].
  assert (Hshape : ∃ rest,
            expected_args x c (raws x) library tool kwargs
            = SAGACMD_str c :: rest).
  { destruct x; eexists; reflexivity. }
  destruct Hshape as [rest Hrest]. rewrite Hrest.
  split; [cbn; lia|]. apply (Command_getitem_head (SAGACMD_str c) rest).
Qed.

Example Command_getitem_negative :
  Command_getitem {| args := ["saga_cmd"; "--help"; "io_gdal"] |} (-1)
  = Some "io_gdal".
Proof. reflexivity. Qed.

Lemma string_append_assoc (a b d : string) :
  (a +:+ b) +:+ d = a +:+ (b +:+ d).
Proof.
  induction a as [|x a IH]; [done|].
  rewrite !append_String. by rewrite IH.
Qed.

Lemma concat_cons (sep x : string) (l : list string) :
  l ≠ [] → String.concat sep (x :: l) = x +:+ sep +:+ String.concat sep l.
Proof. destruct l; [done|reflexivity]. Qed.

Lemma concat_app (sep : string) (a b : list string) :
  a ≠ [] → b ≠ [] →
  String.concat sep (a ++ b)
  = String.concat sep a +:+ sep +:+ String.concat sep b.
Proof.
  intros Ha Hb. induction a as [|x a IH]; [done|].
  destruct a as [|y a].
  - cbn [app]. by rewrite concat_cons.
  - change ((x :: y :: a) ++ b) with (x :: ((y :: a) ++ b)).
    rewrite concat_cons by done. rewrite IH by done.
    rewrite (concat_cons sep x (y :: a)) by done.
    by rewrite !string_append_assoc.
Qed.

(** X7. The string form of a command is its tokens joined by single spaces,
    and it composes along a descent: with non-empty names and at least one
    parameter, the command of the module renders as the command of the
    program, a space and the module name, and the command of the operation
    renders as the command of the module, a space, the operation name, a
    space and the string form of the parameters. *)
Theorem Command_str_descent (E : env) (c : SAGACMD) (raw : option string)
    (library tool : string) (kwargs : dict value) (σ0 : state) :
  library ≠ "" → tool ≠ "" → kwargs ≠ [] →
  ∃ plt σ cp cl ct,
    descend E c raw library tool kwargs σ0 = (Ok plt, σ)
    ∧ SAGA_command plt.1.1 σ = (Ok cp, σ)
    ∧ Library_command plt.1.2 σ = (Ok cl, σ)
    ∧ Tool_command plt.2 σ = (Ok ct, σ)
    ∧ Command_str cl = Command_str cp +:+ " " +:+ library
    ∧ Command_str ct
      = Command_str cl +:+ " " +:+ tool +:+ " "
          +:+ Parameters_str (Parameters_init kwargs).
Proof.
  intros Hlib Htool Hkw.
  destruct (descend_chain E c raw library tool kwargs σ0)
    as (plt & σ & Hd & Hc & _).
  pose proof (chain_command Program _ _ _ _ _ _ _ Hc) as Hp.
  pose proof (chain_command Module_ _ _ _ _ _ _ _ Hc) as Hl.
  pose proof (chain_command Operation _ _ _ _ _ _ _ Hc) as Ht.
  pose proof (level_command_eq plt.1.1 σ) as Hep.
  pose proof (level_command_eq plt.1.2 σ) as Hel.
  pose proof (level_command_eq plt.2 σ) as Het.
  destruct Hc as (fp & fl & ft & Hhp & _ & Hhl & _ & Hht & _).
  rewrite Hhp in Hep. rewrite Hhl in Hel. rewrite Hht in Het.
  cbn [pick] in Hp, Hl, Ht.
  exists plt, σ. eexists _, _, _. rewrite Hep, Hel, Het.
  split_and!; [exact Hd|exact Hp|exact Hl|exact Ht| |];
    unfold Command_str, Parameters_str; cbn [args expected_args];
    unfold name_tokens; rewrite ?(eqb_empty_false library Hlib),
      ?(eqb_empty_false tool Htool).
  - rewrite (app_assoc [SAGACMD_str c]).
    rewrite concat_app; [done|by destruct (flag_tokens raw)|done].
  - assert (Hps : Parameters_iter (Parameters_init kwargs) ≠ []).
    { unfold Parameters_iter, Parameters_init, dict_comp; cbn [_params].
      destruct kwargs as [|kv kw]; [done|]. cbn [fold_left].
      intros Hmap. apply map_eq_nil in Hmap.
      assert (Hlen : ∀ (src : dict value) acc, acc ≠ [] →
                fold_left (λ d kv0, dict_setitem kv0.1 (str kv0.2) d) src acc
                ≠ []).
      { induction src as [|kv' src IH]; intros acc Hacc; [done|].
        cbn [fold_left]. apply IH. destruct acc as [|[k' v'] acc]; [done|].
        cbn [dict_setitem]. by destruct (String.eqb k' kv'.1). }
      eapply Hlen; [|exact Hmap]. done. }
    replace ([SAGACMD_str c] ++ flag_tokens raw ++ [library] ++ [tool]
               ++ Parameters_iter (Parameters_init kwargs))
      with ((([SAGACMD_str c] ++ flag_tokens raw ++ [library]) ++ [tool])
              ++ Parameters_iter (Parameters_init kwargs))
      by (by rewrite <- !app_assoc).
    rewrite concat_app; [|by destruct (flag_tokens raw)|done].
    rewrite concat_app; [|by destruct (flag_tokens raw)|done].
    unfold Parameters_iter. cbn [String.concat].
    by rewrite !string_append_assoc.
Qed.

(** ** Running and extracting *)

Lemma executed_child (E : env) (argv : list string) (ps : Parameters)
    (τ : state) (o : Output) :
  (executed E argv ps τ).1 = Ok o →
  child E argv
  = Exits (returncode (completed_process o)) (text o)
          (stderr (completed_process o)).
Proof.
  unfold executed. destruct (child E argv) as [f|rc out err|rc]; cbn [fst];
    [discriminate| |discriminate].
  by intros [= <-].
Qed.

Lemma chain_heap (σ τ : state) (plt : loc * loc * loc) (c : SAGACMD)
    (library tool : string) (kwargs : dict value)
    (raws : level → option string) :
  heap τ = heap σ →
  chain σ plt c library tool kwargs raws →
  chain τ plt c library tool kwargs raws.
Proof. unfold chain. by intros ->. Qed.

(** X8. An output of [SAGA.run_command] or [Library.run_command] holds no
    parameters, so [get_raster] and [get_vector] return nothing from it
    whatever is asked; its text is the standard output the child wrote for
    the argument vector recorded in the result, with the exit status and
    the error text beside it; and such a run leaves the heap as it was. *)
Theorem upper_level_run_output (E : env) (σ : state) (plt : loc * loc * loc)
    (c : SAGACMD) (library tool : string) (kwargs : dict value)
    (raws : level → option string) (o : Output) :
  chain σ plt c library tool kwargs raws →
  (SAGA_run_command E plt.1.1 σ).1 = Ok o
  ∨ (Library_run_command E plt.1.2 σ).1 = Ok o →
  items (parameters o) = []
  ∧ (∀ names, get_raster o names = [] ∧ get_vector o names = [])
  ∧ child E (cp_args (completed_process o))
    = Exits (returncode (completed_process o)) (text o)
            (stderr (completed_process o))
  ∧ heap (SAGA_run_command E plt.1.1 σ).2 = heap σ
  ∧ heap (Library_run_command E plt.1.2 σ).2 = heap σ.
Proof.
  intros Hc Ho.
  destruct (run_command_eq E σ plt c library tool kwargs raws Hc)
    as (Hp & Hl & _).
  assert (Hps : parameters o = Parameters_init []
                ∧ child E (cp_args (completed_process o))
                  = Exits (returncode (completed_process o)) (text o)
                          (stderr (completed_process o))).
  { destruct Ho as [Ho|Ho]; [rewrite Hp in Ho|rewrite Hl in Ho];
      pose proof (executed_child _ _ _ _ _ Ho) as Hch;
      destruct (executed_output _ _ _ _ _ Ho) as (Hps & Hargs & _);
      by rewrite Hargs. }
  destruct Hps as [Hps Hch].
  split_and!.
  - by rewrite Hps.
  - intros names. unfold get_raster, get_vector. by rewrite Hps.
  - exact Hch.
  - rewrite Hp. apply executed_heap.
  - rewrite Hl. apply executed_heap.
Qed.

Lemma filter_single_key (k : string) (v : value) (kw : dict value) :
  kwargs_ok kw → (k, v) ∈ kw →
  List.filter (λ kv : string * value, name_in kv.1 [k]) kw = [(k, v)].
Proof.
  unfold kwargs_ok. induction kw as [|[k' v'] kw IH]; intros Hnd Hin.
  - by apply elem_of_nil in Hin.
  - cbn [fmap list_fmap fst] in Hnd. apply NoDup_cons in Hnd as [Hk' Hnd].
    cbn [List.filter fst name_in existsb].
    apply elem_of_cons in Hin as [Heq|Hin].
    + injection Heq as <- <-. rewrite String.eqb_refl. cbn [orb].
      f_equal. apply filter_none. intros [k2 v2] Hin2. cbn [fst].
      rewrite orb_false_r. apply String.eqb_neq. intros ->.
      apply Hk'. apply list_elem_of_fmap. by exists (k, v2).
    + assert (k' ≠ k) as Hne.
      { intros ->. apply Hk'. apply list_elem_of_fmap. by exists (k, v). }
      rewrite orb_false_r. apply String.eqb_neq in Hne. rewrite Hne.
      by apply IH.
Qed.

(** X9. Calling an operation with named values and then asking the output
    for one of the names supplied returns exactly one handle, wrapping the
    string form of the value supplied under that name; the same holds for a
    call with no named value and a name of the parameters already stored. *)
Theorem Tool_call_then_extract (E : env) (σ : state) (plt : loc * loc * loc)
    (c : SAGACMD) (library tool : string) (kwargs : dict value)
    (raws : level → option string) (kw : dict value) (k : string) (v : value)
    (o : Output) :
  chain σ plt c library tool kwargs raws →
  kwargs_ok (match kw with [] => kwargs | _ :: _ => kw end) →
  (k, v) ∈ match kw with [] => kwargs | _ :: _ => kw end →
  (Tool_call E plt.2 kw σ).1 = Ok o →
  get_raster o (inl k) = [mkRaster (str v)]
  ∧ get_vector o (inl k) = [mkVector (str v)]
  ∧ get_raster o (inr [k]) = [mkRaster (str v)]
  ∧ text o = stdout (completed_process o).
Proof.
  intros Hc Hok Hin Ho. unfold Tool_call in Ho.
  set (eff := match kw with [] => kwargs | _ :: _ => kw end) in *.
  assert (Hps : parameters o = Parameters_init eff
                ∧ text o = stdout (completed_process o)).
  { destruct kw as [|kv kw].
    - destruct (run_command_eq E σ plt c library tool kwargs raws Hc)
        as (_ & _ & Ht).
      rewrite Ht in Ho.
      pose proof Ho as Ho'. unfold executed in Ho'.
      destruct (child E _); cbn [fst] in Ho'; [discriminate| |discriminate].
      injection Ho' as <-.
      by destruct (executed_output _ _ _ _ _ Ho).
    - destruct (Tool_run_command_eq E σ plt c library tool kwargs raws kv kw Hc)
        as (ft & _ & Ht).
      rewrite Ht in Ho.
      pose proof Ho as Ho'. unfold executed in Ho'.
      destruct (child E _); cbn [fst] in Ho'; [discriminate| |discriminate].
      injection Ho' as <-.
      by destruct (executed_output _ _ _ _ _ Ho). }
  destruct Hps as [Hps Htext].
  unfold get_raster, get_vector. rewrite Hps.
  rewrite (Parameters_init_distinct eff Hok). cbn [items requested].
  rewrite filter_items_keys, (filter_single_key k v eff Hok Hin).
  done.
Qed.

(** X10. Parameters are replaced wholesale, never merged: of two runs of an
    operation with named values, the second runs and returns with the
    parameters of the second call only, also when the first run failed to
    spawn; a third run with no named value reuses those of the second. *)
Theorem Tool_run_command_twice (E : env) (σ : state) (plt : loc * loc * loc)
    (c : SAGACMD) (library tool : string) (kwargs : dict value)
    (raws : level → option string) (kv1 kv2 : string * value)
    (kw1 kw2 : dict value) :
  chain σ plt c library tool kwargs raws →
  let argv := expected_args Operation c (raws Operation) library tool in
  let r1 := Tool_run_command E plt.2 (kv1 :: kw1) σ in
  let r2 := Tool_run_command E plt.2 (kv2 :: kw2) r1.2 in
  let r3 := Tool_run_command E plt.2 [] r2.2 in
  get_parameters plt.2 r2.2 = (Ok (Parameters_init (kv2 :: kw2)), r2.2)
  ∧ (∀ o2, r2.1 = Ok o2 →
       parameters o2 = Parameters_init (kv2 :: kw2)
       ∧ cp_args (completed_process o2) = argv (kv2 :: kw2))
  ∧ (∀ o3, r3.1 = Ok o3 →
       parameters o3 = Parameters_init (kv2 :: kw2)
       ∧ cp_args (completed_process o3) = argv (kv2 :: kw2)).
Proof.
  intros Hc argv r1 r2 r3.
  assert (Hstep : ∀ τ kws kv kw,
            chain τ plt c library tool kws raws →
            let r := Tool_run_command E plt.2 (kv :: kw) τ in
            chain r.2 plt c library tool (kv :: kw) raws
            ∧ r = executed E (argv (kv :: kw)) (Parameters_init (kv :: kw))
                    {| heap := heap r.2; spawned := spawned τ |}).
  { intros τ kws kv kw Hτ r.
    destruct (set_params_chain τ plt c library tool kws (kv :: kw) raws Hτ)
      as (ft & τ1 & _ & Ht & -> & Hc1).
    destruct (Tool_run_command_eq E τ plt c library tool kws raws kv kw Hτ)
      as (ft' & Ht' & Hr).
    rewrite Ht in Ht'. injection Ht' as <-.
    fold r in Hr. split.
    - apply (chain_heap _ _ _ _ _ _ _ _ (eq_trans (f_equal heap (f_equal snd Hr))
               (executed_heap _ _ _ _)) Hc1).
    - rewrite Hr at 1. f_equal. rewrite Hr, executed_heap. reflexivity. }
  destruct (Hstep σ kwargs kv1 kw1 Hc) as [Hc1 _]. fold r1 in Hc1.
  destruct (Hstep r1.2 (kv1 :: kw1) kv2 kw2 Hc1) as [Hc2 Hr2].
  fold r2 in Hc2, Hr2.
  destruct (run_command_eq E r2.2 plt c library tool (kv2 :: kw2) raws Hc2)
    as (_ & _ & Hr3). fold r3 in Hr3. fold (argv (kv2 :: kw2)) in Hr3.
  split_and!.
  - pose proof Hc2 as (fp & fl & ft & _ & _ & _ & _ & Ht & _).
    unfold get_parameters, bind, load. by rewrite Ht.
  - intros o2 Ho2. rewrite Hr2 in Ho2.
    by destruct (executed_output _ _ _ _ _ Ho2) as (? & ? & _).
  - intros o3 Ho3. rewrite Hr3 in Ho3.
    by destruct (executed_output _ _ _ _ _ Ho3) as (? & ? & _).
Qed.

(** ** More on flags *)

Lemma Flag_str_set_prefixed (s : string) :
  ∃ t, Flag_str (mkFlag (Some s)) = "--" +:+ t.
Proof.
  unfold Flag_str, startswith; cbn [flag].
  destruct (String.prefix "--" s) eqn:Hp; cbn [negb].
  - apply prefix_spec in Hp as [t ->]. by exists t.
  - by exists s.
Qed.

(** X11. A flag is true exactly when its string form is not empty; the
    string form of a set flag always starts with ["--"], so it has at
    least two characters; and rendering is stable: a flag built from the
    string form of a set flag renders as that same string. *)
Theorem Flag_str_stable (f : Flag) (s : string) :
  (Flag_bool f = true ↔ Flag_str f ≠ "")
  ∧ startswith (Flag_str (mkFlag (Some s))) "--" = true
  ∧ (2 ≤ String.length (Flag_str (mkFlag (Some s))))%nat
  ∧ Flag_str (mkFlag (Some (Flag_str (mkFlag (Some s)))))
    = Flag_str (mkFlag (Some s))
  ∧ Flag_bool (mkFlag (Some (Flag_str f))) = true.
Proof.
  destruct (Flag_str_set_prefixed s) as [t Ht].
  assert (Hp : String.prefix "--" (Flag_str (mkFlag (Some s))) = true).
  { apply prefix_spec. by exists t. }
  split_and!.
  - destruct f as [[r|]].
    + split; [intros _; apply Flag_str_set_nonempty|done].
    + split; [discriminate|]. intros H. by destruct H.
  - exact Hp.
  - rewrite Ht, !append_String. cbn [String.length]. lia.
  - unfold Flag_str at 1, startswith; cbn [flag]. by rewrite Hp.
  - reflexivity.
Qed.

Example Flag_of_unset_rendering :
  Flag_str (mkFlag (Some (Flag_str (mkFlag None)))) = "--"
  ∧ Flag_str (mkFlag None) = "".
Proof. split; reflexivity. Qed.

(** X12. Equality of flags is an equivalence: every flag equals itself,
    the test gives the same answer in both directions, and it is
    transitive; a flag equals its own string form; and a raw value written
    with or without the ["--"] prefix gives equal flags. A plain string
    that equals a flag is empty or starts with ["--"]. *)
Theorem Flag_eq_equivalence (f g h : Flag) (s : string) :
  Flag_eq f (OpFlag f) = true
  ∧ Flag_eq f (OpFlag g) = Flag_eq g (OpFlag f)
  ∧ (Flag_eq f (OpFlag g) = true → Flag_eq g (OpFlag h) = true →
     Flag_eq f (OpFlag h) = true)
  ∧ Flag_eq f (OpStr (Flag_str f)) = true
  ∧ Flag_eq (mkFlag (Some s)) (OpFlag (mkFlag (Some (Flag_str (mkFlag (Some s))))))
    = true
  ∧ (Flag_eq f (OpStr s) = true → s = "" ∨ startswith s "--" = true).
Proof.
  unfold Flag_eq; cbn [str_eq].
  split_and!.
  - apply String.eqb_refl.
  - apply String.eqb_sym.
  - rewrite !String.eqb_eq. congruence.
  - apply String.eqb_refl.
  - apply String.eqb_eq.
    destruct (Flag_str_set_prefixed s) as [t Ht].
    unfold Flag_str at 1, startswith; cbn [flag].
    replace (String.prefix "--" (Flag_str (mkFlag (Some s)))) with true;
      [done|].
    symmetry. apply prefix_spec. by exists t.
  - rewrite String.eqb_eq. intros <-. destruct f as [[r|]]; [right|by left].
    destruct (Flag_str_set_prefixed r) as [t Ht].
    apply prefix_spec. by exists t.
Qed.

(** ** Constructing a level from a ready path handle *)

Lemma two_allocs (h : gmap nat obj) (raw : option string) (o : loc → obj) :
  let f := fresh (dom h) in
  let h1 := <[f := OFlag (mkFlag raw)]> h in
  let s := fresh (dom h1) in
  h !! s = None
  ∧ <[s := o f]> h1 !! s = Some (o f)
  ∧ <[s := o f]> h1 !! f = Some (OFlag (mkFlag raw))
  ∧ (∀ l x, h !! l = Some x → <[s := o f]> h1 !! l = Some x).
Proof.
  intros f h1 s.
  assert (Hf : h1 !! f = Some (OFlag (mkFlag raw))) by apply lookup_insert_eq.
  assert (Hsf : s ≠ f) by apply (fresh_ne h1 f _ Hf).
  assert (Hs1 : h1 !! s = None) by apply fresh_lookup.
  assert (Hf0 : h !! f = None) by apply fresh_lookup.
  assert (Hs0 : h !! s = None).
  { unfold h1 in Hs1. by rewrite lookup_insert_ne in Hs1. }
  split_and!.
  - exact Hs0.
  - apply lookup_insert_eq.
  - by rewrite lookup_insert_ne.
  - intros l x Hl. unfold h1.
    rewrite !lookup_insert_ne; [done| |]; intros Heq; rewrite Heq in *;
      congruence.
Qed.

(** X13. Constructing a program or a module from a ready path handle and a
    raw flag never consults the host: on every host, also one that would
    reject the path, it succeeds, spawns nothing, leaves every object of
    the heap as it is, and the command of the new instance is the path, the
    flag token iff a flag was given and, for a module, its name unless
    empty. *)
Theorem level_init_ready_handle (E : env) (c : SAGACMD) (raw : option string)
    (library : string) (σ : state) :
  (∃ s σ',
     SAGA_init E (inr c) (inl raw) σ = (Ok s, σ')
     ∧ heap σ !! s = None
     ∧ (∀ l o, heap σ !! l = Some o → heap σ' !! l = Some o)
     ∧ spawned σ' = spawned σ
     ∧ command s σ'
       = (Ok {| args := [SAGACMD_str c] ++ flag_tokens raw |}, σ'))
  ∧ (∃ m σ',
       Library_init E library (inr c) (inl raw) σ = (Ok m, σ')
       ∧ heap σ !! m = None
       ∧ (∀ l o, heap σ !! l = Some o → heap σ' !! l = Some o)
       ∧ spawned σ' = spawned σ
       ∧ command m σ'
         = (Ok {| args := [SAGACMD_str c] ++ flag_tokens raw
                            ++ name_tokens library |}, σ')).
Proof.
  split.
  - destruct (two_allocs (heap σ) raw (λ f, OSAGA c f))
      as (Hs0 & Hs & Hf & Hold).
    eexists _, _. split; [reflexivity|].
    split_and!; [exact Hs0|exact Hold|reflexivity|].
    rewrite command_eq. unfold command_of. cbn [heap].
    rewrite Hs. cbn beta iota. rewrite Hf.
    do 2 f_equal.
    exact (Command_init_args Program c (mkFlag raw) "" "" []).
  - destruct (two_allocs (heap σ) raw (λ f, OLibrary c f library))
      as (Hs0 & Hs & Hf & Hold).
    eexists _, _. split; [reflexivity|].
    split_and!; [exact Hs0|exact Hold|reflexivity|].
    rewrite command_eq. unfold command_of. cbn [heap].
    rewrite Hs. cbn beta iota. rewrite Hf.
    do 2 f_equal.
    exact (Command_init_args Module_ c (mkFlag raw) library "" []).
Qed.

Example SAGA_init_on_rejecting_host :
  (s <- SAGA_init (mkEnv (mkPath "saga_cmd") (λ _, false) (λ _, false)
                         (λ _, false) (λ _, SpawnFails ExecutableMissing))
                  (inr example_saga_cmd) (inl (Some "version")) ;;
   cmd <- command s ;; ret (args cmd)) (mkState ∅ [])
  = (Ok ["saga_cmd"; "--version"],
     mkState (<[1 := OSAGA example_saga_cmd 0]>
                {[0 := OFlag (mkFlag (Some "version"))]}) []).
Proof. vm_compute. reflexivity. Qed.

(** ** What flag updates leave alone *)

(** X14. No sequence of flag updates on the instances of a descent spawns a
    process or touches a name or the parameters: afterwards the module and
    the operation still render their names, the operation still holds its
    parameters, and its command still ends with their tokens. *)
Theorem flag_updates_frame (σ : state) (plt : loc * loc * loc) (c : SAGACMD)
    (library tool : string) (kwargs : dict value)
    (raws : level → option string) (us : list (level * flag_update)) :
  chain σ plt c library tool kwargs raws →
  ∃ σ' ct front,
    apply_updates us plt σ = (Ok tt, σ')
    ∧ spawned σ' = spawned σ
    ∧ Library_str plt.1.2 σ' = (Ok library, σ')
    ∧ Tool_str plt.2 σ' = (Ok tool, σ')
    ∧ get_parameters plt.2 σ' = (Ok (Parameters_init kwargs), σ')
    ∧ Tool_command plt.2 σ' = (Ok ct, σ')
    ∧ args ct = front ++ Parameters_iter (Parameters_init kwargs).
Proof.
  intros Hc.
  destruct (apply_updates_chain us σ plt c library tool kwargs raws Hc)
    as (σ' & Hus & Hc' & Hsp).
  pose proof (chain_command Operation _ _ _ _ _ _ _ Hc') as Ht.
  pose proof (level_command_eq plt.2 σ') as Het.
  destruct Hc' as (fp & fl & ft & _ & _ & Hhl & _ & Hht & _).
  rewrite Hht in Het. cbn [pick] in Ht.
  exists σ'. eexists _, _. rewrite Het.
  split_and!; [exact Hus|exact Hsp| | | |exact Ht|].
  - unfold Library_str, bind, load. by rewrite Hhl.
  - unfold Tool_str, bind, load. by rewrite Hht.
  - unfold get_parameters, bind, load. by rewrite Hht.
  - cbn [args expected_args]. rewrite !app_assoc. reflexivity.
Qed.

End Saga.

(** * The model run on ASCII examples

    Here [str_upper] is [ascii_upper], which is what [str.upper] gives on
    the ASCII keys of these examples. *)

Lemma Parameters_iter_tokens_witness :
  kwargs_ok [("elevation", VStr "path/to/raster"); ("grid", VStr
      "path/to/grid");
             ("method", VInt 0)]
  ∧ Parameters_iter
      (Parameters_init ascii_upper [("elevation", VStr "path/to/raster");
                        ("grid", VStr "path/to/grid"); ("method", VInt 0)])
    = ["-ELEVATION=path/to/raster"; "-GRID=path/to/grid"; "-METHOD=0"].
Proof.
  assert (Hok : kwargs_ok [("elevation", VStr "path/to/raster");
                           ("grid", VStr "path/to/grid"); ("method", VInt 0)]).
  { unfold kwargs_ok. apply (bool_decide_unpack _). vm_compute. exact I. }
  split; [exact Hok|].
  exact (proj1 (Parameters_iter_tokens ascii_upper _ Hok)).
Defined.

Lemma get_raster_get_vector_spec_witness :
  kwargs_ok [("elevation", VStr "out.tif"); ("grid", VStr "grid.tif");
             ("method", VInt 0)]
  ∧ get_raster
      (Output_init (mkCompletedProcess ["saga_cmd"] 0 "done" "")
         (Parameters_init ascii_upper [("elevation", VStr "out.tif");
                           ("grid", VStr "grid.tif"); ("method", VInt 0)]))
      (inr ["method"; "elevation"])
    = [mkRaster "out.tif"; mkRaster "0"].
Proof.
  assert (Hok : kwargs_ok [("elevation", VStr "out.tif");
                           ("grid", VStr "grid.tif"); ("method", VInt 0)]).
  { unfold kwargs_ok. apply (bool_decide_unpack _). vm_compute. exact I. }
  split; [exact Hok|].
  exact (proj1 (get_raster_get_vector_spec ascii_upper
                  (mkCompletedProcess ["saga_cmd"] 0 "done" "") _
                  (inr ["method"; "elevation"]) Hok)).
Defined.

Lemma Tool_command_after_descent_witness :
  SAGACMD_str (mkSAGACMD (mkPath "/usr/bin/saga_cmd")) ≠ ""
  ∧ "ta_morphometry" ≠ ""
  ∧ ∃ plt σ cmd,
    descend ascii_upper example_env
            (mkSAGACMD (mkPath "/usr/bin/saga_cmd")) (Some "cores=8")
            "ta_morphometry" "0" [("elevation", VStr "dem.tif")]
            (mkState ∅ [])
    = (Ok plt, σ)
    ∧ Tool_command plt.2 σ = (Ok cmd, σ)
    ∧ args cmd = ["/usr/bin/saga_cmd"; "--cores=8"; "ta_morphometry"; "0";
                  "-ELEVATION=dem.tif"].
Proof.
  assert (Hpath : SAGACMD_str (mkSAGACMD (mkPath "/usr/bin/saga_cmd")) ≠ "")
    by (vm_compute; discriminate).
  assert (Hlib : "ta_morphometry" ≠ "") by discriminate.
  split; [exact Hpath|]. split; [exact Hlib|].
  destruct (Tool_command_after_descent ascii_upper
              example_env
              (mkSAGACMD (mkPath "/usr/bin/saga_cmd")) (Some "cores=8")
              "ta_morphometry" "0" [("elevation", VStr "dem.tif")]
              (mkState ∅ []) Hpath Hlib)
    as (plt & σ & cmd & Hd & Hc & Hargs & _).
  exists plt, σ, cmd. split_and!; [exact Hd|exact Hc|exact Hargs].
Defined.

Lemma flag_update_independent_witness :
  (∀ xu, xu ∈ [(Program, SetFlag (Some "help")); (Module_, ClearFlag)] →
         xu.1 ≠ Operation)
  ∧ ∃ plt σ σ' cmd,
      descend ascii_upper example_env example_saga_cmd (Some "cores=8")
          "ta_morphometry"
              "0" example_kwargs (mkState ∅ [])
      = (Ok plt, σ)
      ∧ command (pick Operation plt) σ = (Ok cmd, σ)
      ∧ apply_updates [(Program, SetFlag (Some "help")); (Module_, ClearFlag)]
                      plt σ
        = (Ok tt, σ')
      ∧ command (pick Operation plt) σ' = (Ok cmd, σ').
Proof.
  assert (Hy : ∀ xu, xu ∈ [(Program, SetFlag (Some "help")); (Module_,
      ClearFlag)]
                     → xu.1 ≠ Operation).
  { intros xu Hxu. apply elem_of_cons in Hxu as [->|Hxu]; [discriminate|].
    apply list_elem_of_singleton in Hxu as ->. discriminate. }
  split; [exact Hy|].
  destruct (flag_update_independent ascii_upper example_env example_saga_cmd
              (Some "cores=8") "ta_morphometry" "0" example_kwargs
              (mkState ∅ [])
              [(Program, SetFlag (Some "help")); (Module_, ClearFlag)]
              Operation Hy)
    as (plt & σ & σ' & cmd & Hd & Hc & Hus & Hc' & _).
  by exists plt, σ, σ', cmd.
Defined.

Example expected_args_no_flag :
  expected_args ascii_upper Operation example_saga_cmd None
                "ta_morphometry" "0" [("elevation", VStr "dem.tif")]
  = ["saga_cmd"; "ta_morphometry"; "0"; "-ELEVATION=dem.tif"].
Proof. reflexivity. Qed.

Lemma Tool_run_command_parameters_witness :
  chain ascii_upper (example_state ascii_upper) (1, 2, 3) example_saga_cmd
      "ta_morphometry" "0"
        example_kwargs (λ _, None)
  ∧ Tool_run_command ascii_upper example_env 3 [] (example_state ascii_upper)
    = (Ok (Output_init
             (mkCompletedProcess
                ["saga_cmd"; "ta_morphometry"; "0"; "-ELEVATION=dem.tif"]
                1 "usage" "")
             (Parameters_init ascii_upper example_kwargs)),
       {| heap := heap (example_state ascii_upper);
          spawned := [["saga_cmd"; "ta_morphometry"; "0";
                       "-ELEVATION=dem.tif"]] |}).
Proof.
  assert (Hc : chain ascii_upper (example_state ascii_upper) (1, 2, 3)
      example_saga_cmd "ta_morphometry"
                     "0" example_kwargs (λ _, None)).
  { exists 0, 0, 0. vm_compute. repeat split; discriminate. }
  split; [exact Hc|].
  exact (proj1 (proj2
    (Tool_run_command_parameters ascii_upper example_env (example_state
        ascii_upper) (1, 2, 3)
       example_saga_cmd "ta_morphometry" "0" example_kwargs (λ _, None) Hc))).
Defined.

Example descend_from_empty :
  descend ascii_upper example_env example_saga_cmd None "ta_morphometry" "0"
          example_kwargs (mkState ∅ [])
  = (Ok (1, 2, 3), (example_state ascii_upper)).
Proof. vm_compute. reflexivity. Qed.

Example run_with_named_value :
  (Tool_run_command ascii_upper example_env 3 [("grid", VInt 5)] (example_state
      ascii_upper)).1
  = Ok (Output_init
          (mkCompletedProcess ["saga_cmd"; "ta_morphometry"; "0"; "-GRID=5"]
                              1 "usage" "")
          (Parameters_init ascii_upper [("grid", VInt 5)])).
Proof. vm_compute. reflexivity. Qed.

Example set_flag_on_program :
  (bind (flag_set 1 (Some "help"))
        (λ _, bind (command 1)
                   (λ p, bind (command 3) (λ t, ret (args p, args t))))
        (example_state ascii_upper)).1
  = Ok (["saga_cmd"; "--help"],
        ["saga_cmd"; "ta_morphometry"; "0"; "-ELEVATION=dem.tif"]).
Proof. vm_compute. reflexivity. Qed.

Lemma get_library_inherits_witness :
  heap (example_state ascii_upper) !! 1 = Some (OSAGA example_saga_cmd 0)
  ∧ heap (example_state ascii_upper) !! 0 = Some (OFlag (mkFlag None))
  ∧ ∃ l σ',
      get_library example_env 1 "io_gdal" (example_state ascii_upper) = (Ok l,
          σ')
      ∧ command l σ' = (Ok {| args := ["saga_cmd"; "io_gdal"] |}, σ').
Proof.
  assert (Hp : heap (example_state ascii_upper) !! 1 = Some (OSAGA
      example_saga_cmd 0))
    by (vm_compute; reflexivity).
  assert (Hf : heap (example_state ascii_upper) !! 0 = Some (OFlag (mkFlag
      None)))
    by (vm_compute; reflexivity).
  split; [exact Hp|]. split; [exact Hf|].
  destruct (get_library_inherits ascii_upper example_env (example_state
      ascii_upper) 1 example_saga_cmd
              0 (mkFlag None) "io_gdal" Hp Hf)
    as (l & σ' & Hg & _ & _ & _ & Hc & _).
  exists l, σ'. split; [exact Hg|exact Hc].
Defined.

Lemma get_tool_inherits_witness :
  heap (example_state ascii_upper) !! 2 = Some (OLibrary example_saga_cmd 0
      "ta_morphometry")
  ∧ heap (example_state ascii_upper) !! 0 = Some (OFlag (mkFlag None))
  ∧ ∃ t σ',
      get_tool ascii_upper example_env 2 "17" (example_state ascii_upper) = (Ok
          t, σ')
      ∧ command t σ'
        = (Ok {| args := ["saga_cmd"; "ta_morphometry"; "17"] |}, σ').
Proof.
  assert (Hl : heap (example_state ascii_upper) !! 2
               = Some (OLibrary example_saga_cmd 0 "ta_morphometry"))
    by (vm_compute; reflexivity).
  assert (Hf : heap (example_state ascii_upper) !! 0 = Some (OFlag (mkFlag
      None)))
    by (vm_compute; reflexivity).
  split; [exact Hl|]. split; [exact Hf|].
  destruct (get_tool_inherits ascii_upper example_env (example_state
      ascii_upper) 2 example_saga_cmd
              0 (mkFlag None) "ta_morphometry" "17" Hl Hf)
    as (t & σ' & Hg & _ & _ & _ & _ & _ & Hc & _).
  exists t, σ'. split; [exact Hg|exact Hc].
Defined.

Lemma program_module_tokens_witness :
  chain ascii_upper (example_state ascii_upper) (1, 2, 3) example_saga_cmd
      "ta_morphometry" "0"
        example_kwargs (λ _, None)
  ∧ SAGACMD_str example_saga_cmd ≠ ""
  ∧ ∃ cp cl,
      SAGA_command 1 (example_state ascii_upper) = (Ok cp, (example_state
          ascii_upper))
      ∧ Library_command 2 (example_state ascii_upper) = (Ok cl, (example_state
          ascii_upper))
      ∧ args cp = ["saga_cmd"]
      ∧ args cl = ["saga_cmd"; "ta_morphometry"].
Proof.
  assert (Hc : chain ascii_upper (example_state ascii_upper) (1, 2, 3)
      example_saga_cmd "ta_morphometry"
                     "0" example_kwargs (λ _, None)).
  { exists 0, 0, 0. vm_compute. repeat split; discriminate. }
  assert (Hp : SAGACMD_str example_saga_cmd ≠ "") by (vm_compute; discriminate).
  split; [exact Hc|]. split; [exact Hp|].
  destruct (program_module_tokens ascii_upper (example_state ascii_upper) (1,
      2, 3) example_saga_cmd
              "ta_morphometry" "0" example_kwargs (λ _, None) Hc Hp)
    as (cp & cl & H1 & H2 & H3 & H4 & _).
  exists cp, cl. split_and!; [exact H1|exact H2|exact H3|exact H4].
Defined.

Lemma command_first_token_witness :
  chain ascii_upper (example_state ascii_upper) (1, 2, 3) example_saga_cmd
      "ta_morphometry" "0"
        example_kwargs (λ _, None)
  ∧ ∃ cmd,
      command (pick Operation (1, 2, 3)) (example_state ascii_upper) = (Ok cmd,
          (example_state ascii_upper))
      ∧ Command_getitem cmd 0 = Some "saga_cmd".
Proof.
  assert (Hc : chain ascii_upper (example_state ascii_upper) (1, 2, 3)
      example_saga_cmd "ta_morphometry"
                     "0" example_kwargs (λ _, None)).
  { exists 0, 0, 0. vm_compute. repeat split; discriminate. }
  split; [exact Hc|].
  destruct (command_first_token ascii_upper (example_state ascii_upper) (1, 2,
      3) example_saga_cmd
              "ta_morphometry" "0" example_kwargs (λ _, None) Operation Hc)
    as (cmd & H1 & _ & H2 & _).
  exists cmd. split; [exact H1|exact H2].
Defined.

Lemma Command_str_descent_witness :
  "ta_morphometry" ≠ "" ∧ "0" ≠ "" ∧ example_kwargs ≠ []
  ∧ ∃ plt σ ct,
      descend ascii_upper example_env example_saga_cmd (Some "cores=8")
          "ta_morphometry"
              "0" example_kwargs (mkState ∅ [])
      = (Ok plt, σ)
      ∧ Tool_command plt.2 σ = (Ok ct, σ)
      ∧ Command_str ct
        = "saga_cmd --cores=8 ta_morphometry 0 -ELEVATION=dem.tif".
Proof.
  assert (H1 : "ta_morphometry" ≠ "") by discriminate.
  assert (H2 : "0" ≠ "") by discriminate.
  assert (H3 : example_kwargs ≠ []) by discriminate.
  split; [exact H1|]. split; [exact H2|]. split; [exact H3|].
  destruct (Command_str_descent ascii_upper example_env example_saga_cmd (Some
      "cores=8")
              "ta_morphometry" "0" example_kwargs (mkState ∅ []) H1 H2 H3)
    as (plt & σ & cp & cl & ct & Hd & Hp & Hl & Ht & Hsl & Hst).
  exists plt, σ, ct. split_and!; [exact Hd|exact Ht|].
  rewrite Hst, Hsl.
  pose proof (descend_chain ascii_upper example_env example_saga_cmd (Some
      "cores=8")
                "ta_morphometry" "0" example_kwargs (mkState ∅ []))
    as (plt' & σ' & Hd' & Hc' & _).
  rewrite Hd in Hd'. injection Hd' as <- <-.
  pose proof (chain_command ascii_upper Program _ _ _ _ _ _ _ Hc') as Hcp.
  pose proof (level_command_eq plt.1.1 σ) as Hep.
  destruct Hc' as (fp & fl & ft & Hhp & _).
  rewrite Hhp in Hep. rewrite Hep in Hp. cbn [pick] in Hcp.
  rewrite Hcp in Hp. injection Hp as <-. reflexivity.
Defined.

Lemma upper_level_run_output_witness :
  chain ascii_upper (example_state ascii_upper) (1, 2, 3) example_saga_cmd
      "ta_morphometry" "0"
        example_kwargs (λ _, None)
  ∧ ((SAGA_run_command ascii_upper example_env 1 (example_state ascii_upper)).1
     = Ok (Output_init (mkCompletedProcess ["saga_cmd"] 1 "usage" "")
                       (Parameters_init ascii_upper []))
     ∨ (Library_run_command ascii_upper example_env 2 (example_state
         ascii_upper)).1
       = Ok (Output_init (mkCompletedProcess ["saga_cmd"] 1 "usage" "")
                         (Parameters_init ascii_upper [])))
  ∧ get_raster (Output_init (mkCompletedProcess ["saga_cmd"] 1 "usage" "")
                            (Parameters_init ascii_upper []))
               (inl "elevation")
    = [].
Proof.
  assert (Hc : chain ascii_upper (example_state ascii_upper) (1, 2, 3)
      example_saga_cmd "ta_morphometry"
                     "0" example_kwargs (λ _, None)).
  { exists 0, 0, 0. vm_compute. repeat split; discriminate. }
  assert (Ho : (SAGA_run_command ascii_upper example_env 1 (example_state
      ascii_upper)).1
               = Ok (Output_init (mkCompletedProcess ["saga_cmd"] 1 "usage" "")
                                 (Parameters_init ascii_upper []))
               ∨ (Library_run_command ascii_upper example_env 2 (example_state
                   ascii_upper)).1
                 = Ok (Output_init
                         (mkCompletedProcess ["saga_cmd"] 1 "usage" "")
                         (Parameters_init ascii_upper []))).
  { left. vm_compute. reflexivity. }
  split; [exact Hc|]. split; [exact Ho|].
  exact (proj1 (proj1 (proj2
    (upper_level_run_output ascii_upper example_env (example_state ascii_upper)
        (1, 2, 3)
       example_saga_cmd "ta_morphometry" "0" example_kwargs (λ _, None) _
       Hc Ho)) (inl "elevation"))).
Defined.

Lemma Tool_call_then_extract_witness :
  chain ascii_upper (example_state ascii_upper) (1, 2, 3) example_saga_cmd
      "ta_morphometry" "0"
        example_kwargs (λ _, None)
  ∧ kwargs_ok [("slope", VStr "slope.tif"); ("method", VInt 6)]
  ∧ ("slope", VStr "slope.tif")
    ∈ [("slope", VStr "slope.tif"); ("method", VInt 6)]
  ∧ ∃ o,
      (Tool_call ascii_upper example_env 3
                 [("slope", VStr "slope.tif"); ("method", VInt 6)]
                 (example_state ascii_upper)).1
      = Ok o
      ∧ get_raster o (inl "slope") = [mkRaster "slope.tif"].
Proof.
  assert (Hc : chain ascii_upper (example_state ascii_upper) (1, 2, 3)
      example_saga_cmd "ta_morphometry"
                     "0" example_kwargs (λ _, None)).
  { exists 0, 0, 0. vm_compute. repeat split; discriminate. }
  assert (Hok : kwargs_ok [("slope", VStr "slope.tif"); ("method", VInt 6)]).
  { unfold kwargs_ok. apply (bool_decide_unpack _). vm_compute. exact I. }
  assert (Hin : ("slope", VStr "slope.tif")
                ∈ [("slope", VStr "slope.tif"); ("method", VInt 6)])
    by apply list_elem_of_here.
  split; [exact Hc|]. split; [exact Hok|]. split; [exact Hin|].
  eexists. split; [vm_compute; reflexivity|].
  exact (proj1
    (Tool_call_then_extract ascii_upper example_env (example_state ascii_upper)
        (1, 2, 3)
       example_saga_cmd "ta_morphometry" "0" example_kwargs (λ _, None)
       [("slope", VStr "slope.tif"); ("method", VInt 6)] "slope"
       (VStr "slope.tif") _ Hc Hok Hin eq_refl)).
Defined.

Lemma Tool_run_command_twice_witness :
  chain ascii_upper (example_state ascii_upper) (1, 2, 3) example_saga_cmd
      "ta_morphometry" "0"
        example_kwargs (λ _, None)
  ∧ get_parameters 3
      (Tool_run_command ascii_upper example_env 3 [("slope", VStr "s.tif")]
         (Tool_run_command ascii_upper example_env 3 [("aspect", VStr "a.tif")]
            (example_state ascii_upper)).2).2
    = (Ok (Parameters_init ascii_upper [("slope", VStr "s.tif")]),
       (Tool_run_command ascii_upper example_env 3 [("slope", VStr "s.tif")]
          (Tool_run_command ascii_upper example_env 3 [("aspect", VStr "a.tif")]
             (example_state ascii_upper)).2).2).
Proof.
  assert (Hc : chain ascii_upper (example_state ascii_upper) (1, 2, 3)
      example_saga_cmd "ta_morphometry"
                     "0" example_kwargs (λ _, None)).
  { exists 0, 0, 0. vm_compute. repeat split; discriminate. }
  split; [exact Hc|].
  exact (proj1
    (Tool_run_command_twice ascii_upper example_env (example_state ascii_upper)
        (1, 2, 3)
       example_saga_cmd "ta_morphometry" "0" example_kwargs (λ _, None)
       ("aspect", VStr "a.tif") ("slope", VStr "s.tif") [] [] Hc)).
Defined.

Lemma flag_updates_frame_witness :
  chain ascii_upper (example_state ascii_upper) (1, 2, 3) example_saga_cmd
      "ta_morphometry" "0"
        example_kwargs (λ _, None)
  ∧ ∃ σ',
      apply_updates [(Operation, SetFlag (Some "cores=4")); (Program,
          ClearFlag)]
                    (1, 2, 3) (example_state ascii_upper)
      = (Ok tt, σ')
      ∧ get_parameters 3 σ' = (Ok (Parameters_init ascii_upper example_kwargs),
          σ').
Proof.
  assert (Hc : chain ascii_upper (example_state ascii_upper) (1, 2, 3)
      example_saga_cmd "ta_morphometry"
                     "0" example_kwargs (λ _, None)).
  { exists 0, 0, 0. vm_compute. repeat split; discriminate. }
  split; [exact Hc|].
  destruct (flag_updates_frame ascii_upper (example_state ascii_upper) (1, 2,
      3) example_saga_cmd
              "ta_morphometry" "0" example_kwargs (λ _, None)
              [(Operation, SetFlag (Some "cores=4")); (Program, ClearFlag)] Hc)
    as (σ' & ct & front & Hus & _ & _ & _ & Hg & _).
  exists σ'. split; [exact Hus|exact Hg].
Defined.

(** C2. The command of an operation has the order the claim gives, but it
    is not free of empty tokens: for a module named by the empty string the
    command of the operation keeps an empty token, where the command of
    the module itself, built from the same name, drops it. *)
Lemma Tool_command_empty_library_token :
  ∃ plt σ ct cl,
    descend ascii_upper example_env example_saga_cmd None "" "0" []
            (mkState ∅ [])
    = (Ok plt, σ)
    ∧ Tool_command plt.2 σ = (Ok ct, σ)
    ∧ args ct = ["saga_cmd"; ""; "0"]
    ∧ ¬ Forall (λ tok, tok ≠ "") (args ct)
    ∧ Library_command plt.1.2 σ = (Ok cl, σ)
    ∧ args cl = ["saga_cmd"].
Proof.
  destruct (descend_chain ascii_upper example_env example_saga_cmd None "" "0"
              [] (mkState ∅ []))
    as (plt & σ & Hd & Hc & _).
  exists plt, σ, {| args := ["saga_cmd"; ""; "0"] |},
    {| args := ["saga_cmd"] |}.
  pose proof (chain_command ascii_upper Operation _ _ _ _ _ _ _ Hc) as Hct.
  pose proof (chain_command ascii_upper Module_ _ _ _ _ _ _ _ Hc) as Hcl.
  pose proof (level_command_eq plt.2 σ) as Het.
  pose proof (level_command_eq plt.1.2 σ) as Hel.
  destruct Hc as (fp & fl & ft & _ & _ & Hl & _ & Ht & _).
  rewrite Ht in Het. rewrite Hl in Hel. cbn [pick] in Hct, Hcl.
  rewrite Het, Hel.
  split_and!; [done|exact Hct|done| |exact Hcl|done].
  intros HF. apply Forall_cons in HF as [_ HF].
  apply Forall_cons in HF as [HF _]. by apply HF.
Qed.
